(** * Meerkat: dataframe endpoints and markdown components

    A shallow embedding of [meerkat/interactive/api/routers/dataframe.py]
    (the [schema], [rows], [remove_row_by_index] and [edit] endpoint
    handlers with their helper [_get_column_infos]) together with the
    parts of the [DataFrame] abstraction they rest on, and of the
    validators of the markdown components.

    Python objects are modelled as follows.
    - Cell values and keys are integers or strings, the two types the key
      list of [rows] admits ([Union[StrictInt, StrictStr]]).
    - A raised exception is the left injection of a sum; a handler that
      touches shared state runs in a state-and-exception monad whose state
      holds the dataframe object the handler received and the process-wide
      modification queue.
    - A dataframe is an ordered association list from column names to
      columns. *)

From Stdlib Require Import List Ascii String ZArith Bool Arith Lia DecimalString.

Import ListNotations.

#[local] Open Scope string_scope.
#[local] Open Scope list_scope.
#[local] Open Scope nat_scope.

(* ================================================================= *)
(** ** Python values and exceptions *)

Inductive value : Type :=
| VInt (z : Z)
| VStr (s : string).

(** Python [==] between two such values: an integer never equals a string. *)
Definition value_eqb (a b : value) : bool :=
  match a, b with
  | VInt x, VInt y => Z.eqb x y
  | VStr x, VStr y => String.eqb x y
  | _, _ => false
  end.

(** [str(v)], as an f-string interpolates it. *)
Definition py_str (v : value) : string :=
  match v with
  | VInt z => NilZero.string_of_int (Z.to_int z)
  | VStr s => s
  end.

(** The sixteen hexadecimal digits, in lower case. *)
Definition hex_digit (n : N) : ascii :=
  match String.get (N.to_nat n) "0123456789abcdef" with
  | Some d => d
  | None => "0"%char
  end.

(** A character is a code point below 256. Python prints it as it is unless
    it is a control character, DEL, one of the code points 128 to 160, or
    the soft hyphen 173. *)
Definition py_isprintable (ch : ascii) : bool :=
  let n := N_of_ascii ch in
  ((32 <=? n) && (n <? 127) || (161 <=? n) && negb (n =? 173))%N.

(** One character inside [repr(s)], between the quotes [quote]. *)
Definition py_repr_char (quote ch : ascii) : string :=
  let n := N_of_ascii ch in
  if Ascii.eqb ch quote || Ascii.eqb ch "\"%char then String "\"%char (String ch "")
  else if (n =? 9)%N then "\t"
  else if (n =? 10)%N then "\n"
  else if (n =? 13)%N then "\r"
  else if py_isprintable ch then String ch ""
  else String "\"%char (String "x"%char
         (String (hex_digit (n / 16)) (String (hex_digit (n mod 16)) ""))).

Fixpoint contains (ch : ascii) (s : string) : bool :=
  match s with
  | EmptyString => false
  | String c s' => Ascii.eqb c ch || contains ch s'
  end.

Fixpoint flat_map_string (f : ascii -> string) (s : string) : string :=
  match s with
  | EmptyString => EmptyString
  | String c s' => (f c ++ flat_map_string f s')%string
  end.

(** [repr(s)] of a string: between single quotes, or between double quotes
    when the string holds a single quote and no double quote; the quote in
    use and the backslash are escaped. *)
Definition py_repr (s : string) : string :=
  let double_quote := ascii_of_N 34 in
  let quote :=
    if contains "'"%char s && negb (contains double_quote s) then double_quote
    else "'"%char in
  String quote (flat_map_string (py_repr_char quote) s ++ String quote "")%string.

(** [str] of a list of strings, each element shown by its [repr]. *)
Definition py_str_list (l : list string) : string :=
  ("[" ++ String.concat ", " (map py_repr l) ++ "]")%string.

Inductive exn : Type :=
| HTTPException (status_code : value) (detail : option string)
| KeyError (key : value)
| IndexError (index : Z)
| ValueError (msg : string)
| AttributeError (attribute : string).

(** [HTTPException(status_code)] called with a string and no [detail], as
    line 167 does. The constructor fills a missing detail with
    [http.HTTPStatus(status_code).phrase]; no status is a string, so this
    lookup raises [ValueError] and no [HTTPException] comes into being. The
    result is the exception that escapes. *)
Definition HTTPException_without_detail (status_code : string) : exn :=
  ValueError (py_repr status_code ++ " is not a valid HTTPStatus")%string.

(* ================================================================= *)
(** ** Two small monads: exceptions, and state with exceptions *)

Class Monad (m : Type -> Type) : Type := {
  ret : forall {A}, A -> m A;
  bind : forall {A B}, m A -> (A -> m B) -> m B
}.

Notation "x <- c1 ;; c2" := (bind c1 (fun x => c2))
  (at level 61, c1 at next level, right associativity).
Notation "c1 ;; c2" := (bind c1 (fun _ => c2))
  (at level 61, right associativity).

Definition res (A : Type) : Type := (exn + A)%type.

#[export] Instance res_Monad : Monad res := {
  ret := fun A a => inr a;
  bind := fun A B c k => match c with inl e => inl e | inr a => k a end
}.

Definition throw {A} (e : exn) : res A := inl e.

Fixpoint mapM {A B} (f : A -> res B) (l : list A) : res (list B) :=
  match l with
  | [] => ret []
  | x :: xs => y <- f x ;; ys <- mapM f xs ;; ret (y :: ys)
  end.

(* ================================================================= *)
(** ** Columns and dataframes *)

(** What the handlers read from a column's formatter. *)
Record Formatter : Type := {
  component_alias : string;
  data_prop : string;
  get_props : option (list string) -> list (string * value);
  encode : value -> option (list string) -> value
}.

(** A column as the handlers see it: the name of its class
    ([type(col).__name__]), its formatter, its values, and whether it is a
    pandas column, the one kind of column that has [isin] (see the FIXME in
    [rows]). *)
Record Column : Type := {
  type_name : string;
  formatter : Formatter;
  pandas : bool;
  data : list value
}.

(** Modelled from the spec: the [DataFrame] class ([meerkat.dataframe]) is
    not among the sources. Section 3 describes it as a named, ordered
    mapping from column name to column, all columns of one length, with an
    optional primary-key column name and an identity that persists across
    mutations. [df_id] is [df.id] and [inode_id] is [df.inode.id]. *)
Record DataFrame : Type := {
  df_id : string;
  inode_id : string;
  items : list (string * Column);
  primary_key_name : option string
}.

(** [df.columns] *)
Definition columns (df : DataFrame) : list string := map fst (items df).

(** [len(df)]: the common length of the columns. *)
Definition len (df : DataFrame) : nat :=
  match items df with
  | [] => 0
  | (_, c) :: _ => List.length (data c)
  end.

Fixpoint lookup (n : string) (l : list (string * Column)) : option Column :=
  match l with
  | [] => None
  | (k, c) :: rest => if String.eqb k n then Some c else lookup n rest
  end.

(** All columns have [len df] rows. *)
Definition uniform (df : DataFrame) : Prop :=
  forall n c, In (n, c) (items df) -> List.length (data c) = len df.

(** The data invariant of Section 3: unique names, equal lengths, and a
    primary key that names one of the columns. *)
Definition wf (df : DataFrame) : Prop :=
  NoDup (columns df) /\
  uniform df /\
  (forall pk, primary_key_name df = Some pk -> In pk (columns df)).

(** Modelled from the spec: [df[name]], column selection by one name; an
    absent name is the not-found condition of Section 7. *)
Definition getitem (df : DataFrame) (n : string) : res Column :=
  match lookup n (items df) with
  | Some c => ret c
  | None => throw (KeyError (VStr n))
  end.

(** Modelled from the spec: [df[[n1, ..., nk]]], "column selection by
    name-list returns a DataFrame containing only those columns, preserving
    row order and length". The primary key stays when its column does. *)
Definition getitem_columns (df : DataFrame) (names : list string) : res DataFrame :=
  cols <- mapM (fun n => c <- getitem df n ;; ret (n, c)) names ;;
  ret {| df_id := df_id df;
         inode_id := inode_id df;
         items := cols;
         primary_key_name :=
           match primary_key_name df with
           | Some pk => if existsb (String.eqb pk) names then Some pk else None
           | None => None
           end |}.

(** [df1] is [df] cut down to the columns [names]: it has these names, its
    columns are those [df] holds under them, and it keeps the primary key
    when the key is among them. *)
Definition projected (df : DataFrame) (names : list string) (df1 : DataFrame) : Prop :=
  columns df1 = names /\
  (forall n c, In (n, c) (items df1) -> lookup n (items df) = Some c) /\
  (forall n, In n names -> lookup n (items df1) = lookup n (items df)) /\
  primary_key_name df1 =
    match primary_key_name df with
    | Some pk => if existsb (String.eqb pk) names then Some pk else None
    | None => None
    end.

(** Boolean-mask selection on one sequence. *)
Fixpoint select_mask {A} (mask : list bool) (l : list A) : list A :=
  match mask, l with
  | b :: mask', x :: l' => if b then x :: select_mask mask' l' else select_mask mask' l'
  | _, _ => []
  end.

Definition map_data (f : list value -> list value) (c : Column) : Column :=
  {| type_name := type_name c; formatter := formatter c; pandas := pandas c;
     data := f (data c) |}.

Definition map_items (f : list value -> list value) (df : DataFrame) : DataFrame :=
  {| df_id := df_id df;
     inode_id := inode_id df;
     items := map (fun kc => (fst kc, map_data f (snd kc))) (items df);
     primary_key_name := primary_key_name df |}.

(** Modelled from the spec: [df[mask]], "row selection by boolean mask
    returns a DataFrame with the same columns but a filtered subset of
    rows"; the identity of the frame persists. *)
Definition getitem_mask (df : DataFrame) (mask : list bool) : DataFrame :=
  map_items (select_mask mask) df.

(** A position as NumPy reads it: [-n <= i < n], negatives counted from the
    end. *)
Definition norm_index (n : nat) (i : Z) : res nat :=
  if (0 <=? i)%Z && (i <? Z.of_nat n)%Z then ret (Z.to_nat i)
  else if (- Z.of_nat n <=? i)%Z && (i <? 0)%Z then ret (Z.to_nat (Z.of_nat n + i))
  else throw (IndexError i).

Definition take {A} (idxs : list nat) (l : list A) : list A :=
  flat_map (fun i => match nth_error l i with Some x => [x] | None => [] end) idxs.

(** Modelled from the spec: [df[posidxs]], "row selection by explicit
    position list; position lists may reorder and repeat positions". *)
Definition getitem_posidxs (df : DataFrame) (posidxs : list Z) : res DataFrame :=
  idxs <- mapM (norm_index (len df)) posidxs ;;
  ret (map_items (take idxs) df).

(** Bounds of the slice [start:stop] on a sequence of length [n]. *)
Definition clamp (n : nat) (i : Z) : nat :=
  if (i <? 0)%Z then Z.to_nat (Z.max 0 (Z.of_nat n + i))
  else Nat.min n (Z.to_nat i).

(** Modelled from the spec: [df[start:end]], "row selection by contiguous
    range". *)
Definition getitem_slice (df : DataFrame) (start stop : Z) : DataFrame :=
  let a := clamp (len df) start in
  let b := clamp (len df) stop in
  map_items (fun l => firstn (b - a) (skipn a l)) df.

(** [list(range(start, end))] *)
Definition py_range (start stop : Z) : list Z :=
  map (fun k => (start + Z.of_nat k)%Z) (seq 0 (Z.to_nat (stop - start))).

(** Modelled from the spec: [col == v], comparison of a column with a
    scalar, Section 4.1: "result is a new boolean ScalarColumn of equal
    length". *)
Definition column_eq (c : Column) (v : value) : list bool :=
  map (fun x => value_eqb x v) (data c).

(** [col.isin(keys)], element-wise membership, an operation of pandas. The
    FIXME at the call says that it "will only work if key_column is a
    pandas column"; on any other column the attribute is taken to be
    missing. *)
Definition isin (c : Column) (keys : list value) : res (list bool) :=
  if pandas c then ret (map (fun x => existsb (value_eqb x) keys) (data c))
  else throw (AttributeError "isin").

(** Modelled from the spec: [mask.sum()], the [sum] aggregation of Section
    4.1 on a boolean column: the number of positions that hold. *)
Definition mask_sum (mask : list bool) : nat := count_occ bool_dec mask true.

(** Modelled from the spec: [col[mask] = v], "in-place element assignment
    via masked indexing": positions where the mask holds take [v]. *)
Fixpoint assign_mask (mask : list bool) (v : value) (l : list value) : list value :=
  match mask, l with
  | b :: mask', x :: l' => (if b then v else x) :: assign_mask mask' v l'
  | _, _ => l
  end.

Definition setitem_mask (c : Column) (mask : list bool) (v : value) : Column :=
  map_data (assign_mask mask v) c.

(** The column object [df[n]] is shared with the frame, so an assignment
    into it is seen through [df]: the frame holds [c] under [n] afterwards. *)
Fixpoint store (n : string) (c : Column) (l : list (string * Column))
  : list (string * Column) :=
  match l with
  | [] => []
  | (k, c0) :: rest =>
      if String.eqb k n then (k, c) :: rest else (k, c0) :: store n c rest
  end.

Definition with_items (df : DataFrame) (l : list (string * Column)) : DataFrame :=
  {| df_id := df_id df; inode_id := inode_id df; items := l;
     primary_key_name := primary_key_name df |}.

(** First position of a key in a sequence. *)
Fixpoint index_of (k : value) (l : list value) : option nat :=
  match l with
  | [] => None
  | x :: xs => if value_eqb x k then Some 0 else option_map S (index_of k xs)
  end.

(** Modelled from the spec: [df.loc[keyidxs]], "row selection by
    primary-key value list resolves positions by primary-key lookup; fails
    with a not-found condition if any key is absent". Without a primary key
    there is no column to look the keys up in. *)
Definition loc (df : DataFrame) (keyidxs : list value) : res DataFrame :=
  match primary_key_name df with
  | None => throw (KeyError (VStr "loc"))
  | Some pk =>
      pkc <- getitem df pk ;;
      idxs <- mapM (fun k => match index_of k (data pkc) with
                             | Some i => ret i
                             | None => throw (KeyError k)
                             end) keyidxs ;;
      ret (map_items (take idxs) df)
  end.

(** The cell of column [n] at row [i], when there is one. *)
Definition cell (df : DataFrame) (n : string) (i : nat) : option value :=
  match lookup n (items df) with
  | Some c => nth_error (data c) i
  | None => None
  end.

(** Row [i] satisfies the identifier predicate [df[ic] == k]. *)
Definition matches (df : DataFrame) (ic : string) (k : value) (i : nat) : bool :=
  match cell df ic i with
  | Some y => value_eqb y k
  | None => false
  end.

(** The key of row [i] in column [kc] is one of [keys]. *)
Definition key_in (df : DataFrame) (kc : string) (keys : list value) (i : nat) : bool :=
  match cell df kc i with
  | Some x => existsb (value_eqb x) keys
  | None => false
  end.

(** Row [i] as the list of its cells, in column order. *)
Definition row (df : DataFrame) (i : nat) : list (string * option value) :=
  map (fun kc => (fst kc, nth_error (data (snd kc)) i)) (items df).

(* ================================================================= *)
(** ** The modification queue and the handler monad *)

Record DataFrameModification : Type := {
  id : string;
  scope : list string
}.

(** What a handler can see and change: the dataframe object bound to its
    [df] parameter and [state.modification_queue]. *)
Record State : Type := {
  frame : DataFrame;
  modification_queue : list DataFrameModification
}.

Definition M (A : Type) : Type := State -> res A * State.

#[export] Instance M_Monad : Monad M := {
  ret := fun A a st => (inr a, st);
  bind := fun A B c k st =>
    match c st with
    | (inl e, st') => (inl e, st')
    | (inr a, st') => k a st'
    end
}.

Definition lift {A} (r : res A) : M A := fun st => (r, st).
Definition raise {A} (e : exn) : M A := fun st => (inl e, st).
Definition get_frame : M DataFrame := fun st => (inr (frame st), st).
Definition put_frame (df : DataFrame) : M unit :=
  fun st => (inr tt, {| frame := df; modification_queue := modification_queue st |}).

(** Modelled from the spec: [state.modification_queue.add(m)]; the queue
    class is not among the sources. Section 4.3: the handler "appends it to
    the process-wide queue". *)
Definition modification_queue_add (m : DataFrameModification) : M unit :=
  fun st => (inr tt, {| frame := frame st;
                        modification_queue := modification_queue st ++ [m] |}).

(* ================================================================= *)
(** ** [routers/dataframe.py] *)

Record ColumnInfo : Type := {
  name : string;
  type : string;
  cell_component : string;
  cell_props : list (string * value);
  cell_data_prop : string
}.

Record SchemaResponse : Type := {
  schema_id : string;
  schema_columns : list ColumnInfo;
  schema_nrows : nat;
  schema_primary_key : option string
}.

Record RowsResponse : Type := {
  column_infos : list ColumnInfo;
  posidxs : option (list Z);
  rows_ : list (list value);
  full_length : nat;
  primary_key : option string
}.

(** [set(a) - set(b)] *)
Definition set_difference (a b : list string) : list string :=
  nodup string_dec (filter (fun x => negb (existsb (String.eqb x) b)) a).

(** [column.startswith("_")] *)
Definition startswith_underscore (column : string) : bool := String.prefix "_" column.

(** The list comprehension that ends [_get_column_infos]. *)
Definition column_info (df : DataFrame) (variants : option (list string))
    (col : string) : res ColumnInfo :=
  c <- getitem df col ;;
  ret {| name := col;
         type := type_name c;
         cell_component := component_alias (formatter c);
         cell_props := get_props (formatter c) variants;
         cell_data_prop := data_prop (formatter c) |}.

(** The [if columns is None: ... else: ...] that opens
    [_get_column_infos]. *)
Definition requested_columns (df : DataFrame) (columns_ : option (list string))
  : res (list string) :=
  match columns_ with
  | None => ret (columns df)
  | Some columns_ =>
      let missing_columns := set_difference columns_ (columns df) in
      if 0 <? List.length missing_columns
      then throw (HTTPException (VInt 404)
             (Some ("Requested columns " ++ py_str_list columns_
                    ++ " do not exist in dataframe with id " ++ df_id df)%string))
      else ret columns_
  end.

Definition _get_column_infos (df : DataFrame) (columns_ : option (list string))
    (variants : option (list string)) : res (list ColumnInfo) :=
  columns_ <- requested_columns df columns_ ;;
  let columns_ := filter (fun column => negb (startswith_underscore column)) columns_ in
  let columns_ :=
    match primary_key_name df with
    | Some pk =>
        if negb (existsb (String.eqb pk) columns_) then columns_ ++ [pk] else columns_
    | None => columns_
    end in
  mapM (column_info df variants) columns_.

(** The names [_get_column_infos] reports for a list of requested names:
    those without a leading underscore, then the primary key when it is not
    among them. *)
Definition reported_names (df : DataFrame) (requested : list string) : list string :=
  let kept := filter (fun column => negb (startswith_underscore column)) requested in
  match primary_key_name df with
  | Some pk => if existsb (String.eqb pk) kept then kept else kept ++ [pk]
  | None => kept
  end.

Definition schema (columns_ variants : option (list string)) : M SchemaResponse :=
  df <- get_frame ;;
  let columns_ := match columns_ with None => columns df | Some l => l end in
  infos <- lift (_get_column_infos df (Some columns_) variants) ;;
  ret {| schema_id := df_id df;
         schema_columns := infos;
         schema_nrows := len df;
         schema_primary_key := primary_key_name df |}.

(** The body of [for row in df]: one encoded cell per column info. *)
Definition encode_row (df : DataFrame) (infos : list ColumnInfo)
    (variants : option (list string)) (i : nat) : res (list value) :=
  mapM (fun info =>
          c <- getitem df (name info) ;;
          match nth_error (data c) i with
          | Some v => ret (encode (formatter c) v variants)
          | None => throw (IndexError (Z.of_nat i))
          end) infos.

(** The row selection of [rows]: the selected frame and the positions the
    response reports. *)
Definition select_rows (df : DataFrame) (start end_ : option Z)
    (posidxs : option (list Z)) (key_column : option string)
    (keyidxs : option (list value)) : res (DataFrame * option (list Z)) :=
  match posidxs with
  | Some p => df' <- getitem_posidxs df p ;; ret (df', Some p)
  | None =>
      match start with
      | Some s =>
          let e := match end_ with
                   | None => Z.of_nat (len df)
                   | Some e => Z.min e (Z.of_nat (len df))
                   end in
          ret (getitem_slice df s e, Some (py_range s e))
      | None =>
          match keyidxs with
          | Some keys =>
              match key_column with
              | None =>
                  match primary_key_name df with
                  | None =>
                      throw (ValueError
                        "Must provide key_column if keyidxs are provided and no primary_key on dataframe.")
                  | Some _ => df' <- loc df keys ;; ret (df', None)
                  end
              | Some kc =>
                  c <- getitem df kc ;;
                  mask <- isin c keys ;;
                  ret (getitem_mask df mask, None)
              end
          | None => throw (ValueError "")
          end
      end
  end.

Definition rows (start end_ : option Z) (posidxs : option (list Z))
    (key_column : option string) (keyidxs : option (list value))
    (columns_ variants : option (list string)) : M RowsResponse :=
  df <- get_frame ;;
  lift (
    let full_length := len df in
    column_infos <- _get_column_infos df columns_ variants ;;
    df <- getitem_columns df (map name column_infos) ;;
    sel <- select_rows df start end_ posidxs key_column keyidxs ;;
    let df := fst sel in
    rows <- mapM (encode_row df column_infos variants) (seq 0 (len df)) ;;
    ret {| column_infos := column_infos;
           posidxs := snd sel;
           rows_ := rows;
           full_length := full_length;
           primary_key := primary_key_name df |}).

(** [infos] are the column infos some schema or rows request on [st] with
    the column list [requested] returns. *)
Definition returns_infos (st : State) (requested variants : option (list string))
    (infos : list ColumnInfo) : Prop :=
  (exists resp st',
     schema requested variants st = (inr resp, st') /\ schema_columns resp = infos) \/
  (exists start end_ posidxs_ key_column keyidxs resp st',
     rows start end_ posidxs_ key_column keyidxs requested variants st = (inr resp, st')
     /\ column_infos resp = infos).

(** [np.arange(n) != row_index] *)
Definition arange_ne (n : nat) (row_index : Z) : list bool :=
  map (fun k => negb (Z.of_nat k =? row_index)%Z) (seq 0 n).

(** The handler rebinds its local name [df] to the filtered frame, reads
    the id and the column names from it, and returns nothing. The frame
    object it received is not assigned to, and the filtered frame is stored
    nowhere. *)
Definition remove_row_by_index (row_index : Z) : M unit :=
  df <- get_frame ;;
  let df := getitem_mask df (arange_ne (len df) row_index) in
  modification_queue_add {| id := inode_id df; scope := columns df |}.

Definition edit (value_ : value) (column : string) (row_id : value)
    (id_column : string) : M unit :=
  df <- get_frame ;;
  id_col <- lift (getitem df id_column) ;;
  let mask := column_eq id_col row_id in
  if mask_sum mask =? 0
  then raise (HTTPException_without_detail
                ("Row with id " ++ py_str row_id ++ " not found in column "
                 ++ id_column)%string)
  else
    col <- lift (getitem df column) ;;
    put_frame (with_items df (store column (setitem_mask col mask value_) (items df))) ;;
    modification_queue_add {| id := inode_id df; scope := [column] |}.

(* ================================================================= *)
(** ** Sample data *)

Definition plain_formatter : Formatter :=
  {| component_alias := "ScalarFormatter";
     data_prop := "data";
     get_props := fun _ => [];
     encode := fun v _ => v |}.

(** A pandas column of integers. *)
Definition int_column (l : list Z) : Column :=
  {| type_name := "ScalarColumn"; formatter := plain_formatter; pandas := true;
     data := map VInt l |}.

(** The frame of the edit scenario of Section 8: [id=[1,2,3]],
    [score=[10,20,30]]. *)
Definition scores : DataFrame :=
  {| df_id := "df0"; inode_id := "node0";
     items := [("id", int_column [1; 2; 3]%Z); ("score", int_column [10; 20; 30]%Z)];
     primary_key_name := None |}.

(** The same frame keyed by [id]. *)
Definition keyed_scores : DataFrame :=
  {| df_id := "df0"; inode_id := "node0";
     items := items scores;
     primary_key_name := Some "id" |}.

(** A frame whose primary key has an underscore name. *)
Definition hidden_key : DataFrame :=
  {| df_id := "df1"; inode_id := "node1";
     items := [("_id", int_column [1; 2]%Z); ("x", int_column [5; 6]%Z)];
     primary_key_name := Some "_id" |}.

(** The column infos of [scores], all columns requested. *)
Definition scores_infos : list ColumnInfo :=
  map (fun n => {| name := n; type := "ScalarColumn";
                   cell_component := "ScalarFormatter";
                   cell_props := []; cell_data_prop := "data" |})
      ["id"; "score"].

Definition fresh (df : DataFrame) : State :=
  {| frame := df; modification_queue := [] |}.

(* ================================================================= *)
(** ** Markdown components: the validators of [core/markdown/__init__.py] *)

Module Markdown.

(** [str(v)] of a raw field value inside an f-string. The validators are
    declared with [pre=True], so they see the value before it is coerced to
    a string, and it may be [None]. *)
Definition fmt (v : option value) : string :=
  match v with
  | None => "None"
  | Some x => py_str x
  end.

(** [Title.make_title] *)
Definition make_title (v : option value) : string := ("# " ++ fmt v)%string.

(** [Header.make_header] *)
Definition make_header (v : option value) : string := ("## " ++ fmt v)%string.

(** [Subheader.make_subheader] *)
Definition make_subheader (v : option value) : string := ("### " ++ fmt v)%string.

(** [Caption.add_classes] *)
Definition add_classes (v : option value) : string :=
  let classes := "text-sm text-gray-400" in
  match v with
  | None => classes
  | Some _ => (fmt v ++ " " ++ classes)%string
  end.

End Markdown.

(* ================================================================= *)
(** ** Auxiliary notions for the properties below *)

(** The position a valid NumPy index [z] denotes in a sequence of length
    [n]. *)
Definition normalized (n : nat) (z : Z) : nat :=
  if (z <? 0)%Z then Z.to_nat (Z.of_nat n + z) else Z.to_nat z.

(** The column info that [_get_column_infos] builds for column [c] under
    the name [n]. *)
Definition describes (variants : option (list string)) (n : string) (c : Column)
    (info : ColumnInfo) : Prop :=
  name info = n /\
  type info = type_name c /\
  cell_component info = component_alias (formatter c) /\
  cell_props info = get_props (formatter c) variants /\
  cell_data_prop info = data_prop (formatter c).

(** [r] is row [i] of [df] as a response shows it under the column infos
    [infos]: one cell per info, and the cell under an info is the value
    that the column of the info's name holds at row [i], encoded by that
    column's formatter. *)
Definition shows_row (df : DataFrame) (infos : list ColumnInfo)
    (variants : option (list string)) (i : nat) (r : list value) : Prop :=
  List.length r = List.length infos /\
  forall j info,
    nth_error infos j = Some info ->
    exists col x,
      lookup (name info) (items df) = Some col /\
      nth_error (data col) i = Some x /\
      nth_error r j = Some (encode (formatter col) x variants).

(** [rs] are the rows of [df] at the positions [idxs], in this order, as a
    response shows them. *)
Definition shows_rows (df : DataFrame) (infos : list ColumnInfo)
    (variants : option (list string)) (idxs : list nat) (rs : list (list value)) : Prop :=
  Forall2 (shows_row df infos variants) idxs rs.

(* ================================================================= *)
(** * Properties of the endpoint handlers *)

Section ListFacts.

Context {A : Type}.

Lemma select_mask_arange (z : Z) (l : list A) (s : nat) :
  select_mask (map (fun k => negb (Z.of_nat k =? z)%Z) (seq s (List.length l))) l =
  if (Z.of_nat s <=? z)%Z && (z <? Z.of_nat (s + List.length l))%Z
  then firstn (Z.to_nat z - s) l ++ skipn (S (Z.to_nat z - s)) l
  else l.
Proof.
  revert s. induction l as [|x l IH]; intros s.
  - rewrite firstn_nil, skipn_nil. simpl. now destruct (_ && _).
  - cbn [List.length seq map select_mask].
    rewrite IH. clear IH.
    destruct (Z.eqb_spec (Z.of_nat s) z) as [E|E]; cbn [negb];
      destruct (Z.leb_spec (Z.of_nat (S s)) z);
      destruct (Z.ltb_spec z (Z.of_nat (S s + List.length l)));
      destruct (Z.leb_spec (Z.of_nat s) z);
      destruct (Z.ltb_spec z (Z.of_nat (s + S (List.length l))));
      cbn [andb]; try lia; try reflexivity.
    + replace (Z.to_nat z - s) with 0 by lia. reflexivity.
    + replace (Z.to_nat z - s) with (S (Z.to_nat z - S s)) by lia.
      reflexivity.
Qed.

Lemma nth_error_drop (i j : nat) (l : list A) :
  nth_error (firstn i l ++ skipn (S i) l) j =
  if j <? i then nth_error l j else nth_error l (S j).
Proof.
  revert i j. induction l as [|x l IH]; intros i j.
  - rewrite firstn_nil, skipn_nil. simpl.
    destruct (j <? i); now destruct j.
  - destruct i as [|i].
    + reflexivity.
    + destruct j as [|j]; [reflexivity|].
      cbn [firstn skipn app nth_error]. rewrite IH.
      reflexivity.
Qed.

Lemma length_drop (i : nat) (l : list A) :
  i < List.length l ->
  List.length (firstn i l ++ skipn (S i) l) = List.length l - 1.
Proof.
  intros Hi. rewrite length_app, length_firstn, length_skipn. lia.
Qed.

End ListFacts.

Lemma nth_error_assign_mask (mask : list bool) (v : value) (l : list value) (i : nat) :
  nth_error (assign_mask mask v l) i =
  match nth_error l i with
  | None => None
  | Some x => match nth_error mask i with
              | Some true => Some v
              | _ => Some x
              end
  end.
Proof.
  revert l i. induction mask as [|b mask IH]; intros l i.
  - simpl. destruct l; [now destruct i|].
    destruct (nth_error (v0 :: l) i); [|reflexivity]. now destruct i.
  - destruct l as [|x l]; [now destruct i|].
    destruct i as [|i]; simpl.
    + now destruct b.
    + apply IH.
Qed.

Lemma length_assign_mask (mask : list bool) (v : value) (l : list value) :
  List.length (assign_mask mask v l) = List.length l.
Proof.
  revert l. induction mask as [|b mask IH]; intros [|x l]; simpl; auto.
Qed.

Lemma mask_sum_zero (c : Column) (k : value) :
  mask_sum (column_eq c k) = 0 <->
  Forall (fun x => value_eqb x k = false) (data c).
Proof.
  unfold mask_sum, column_eq.
  induction (data c) as [|x l IH]; simpl.
  - split; auto.
  - destruct (value_eqb x k) eqn:E; simpl.
    + split; [discriminate|]. intros F. inversion F; congruence.
    + rewrite IH. split; intros F; [now constructor | now inversion F].
Qed.

Lemma lookup_store_same (n : string) (c c0 : Column) (l : list (string * Column)) :
  lookup n l = Some c0 -> lookup n (store n c l) = Some c.
Proof.
  induction l as [|[k c1] l IH]; simpl; [discriminate|].
  destruct (String.eqb k n) eqn:E; simpl; rewrite E; auto.
Qed.

Lemma lookup_store_other (n m : string) (c : Column) (l : list (string * Column)) :
  m <> n -> lookup m (store n c l) = lookup m l.
Proof.
  intros Hne. induction l as [|[k c1] l IH]; simpl; [reflexivity|].
  destruct (String.eqb k n) eqn:E; simpl.
  - apply String.eqb_eq in E. subst k.
    destruct (String.eqb n m) eqn:E'; [|reflexivity].
    apply String.eqb_eq in E'. congruence.
  - now rewrite IH.
Qed.

Lemma map_fst_store (n : string) (c : Column) (l : list (string * Column)) :
  map fst (store n c l) = map fst l.
Proof.
  induction l as [|[k c1] l IH]; simpl; [reflexivity|].
  destruct (String.eqb k n); simpl; congruence.
Qed.

Lemma lookup_In (n : string) (c : Column) (l : list (string * Column)) :
  lookup n l = Some c -> In (n, c) l.
Proof.
  induction l as [|[k c1] l IH]; simpl; [discriminate|].
  destruct (String.eqb k n) eqn:E.
  - apply String.eqb_eq in E. intros [= ->]. left. congruence.
  - auto.
Qed.

Lemma lookup_None (n : string) (l : list (string * Column)) :
  lookup n l = None <-> ~ In n (map fst l).
Proof.
  induction l as [|[k c1] l IH]; simpl; [tauto|].
  destruct (String.eqb k n) eqn:E.
  - apply String.eqb_eq in E. split; [discriminate|]. intros N. exfalso. auto.
  - apply String.eqb_neq in E. rewrite IH. tauto.
Qed.

Lemma lookup_Some_of_In (n : string) (l : list (string * Column)) :
  In n (map fst l) -> exists c, lookup n l = Some c.
Proof.
  intros Hin. destruct (lookup n l) eqn:E; [eauto|].
  apply lookup_None in E. contradiction.
Qed.

(** ** [edit] *)

Lemma mask_sum_pos (c : Column) (k : value) :
  Exists (fun x => value_eqb x k = true) (data c) ->
  (mask_sum (column_eq c k) =? 0) = false.
Proof.
  intros Hex. apply Nat.eqb_neq. intros Hz.
  apply mask_sum_zero in Hz. apply Exists_exists in Hex.
  destruct Hex as (x & Hin & Hx).
  rewrite Forall_forall in Hz. specialize (Hz x Hin). congruence.
Qed.

(** C1. Editing by key. When the identifier column [ic] and the target
    column [c] exist and at least one row has [df[ic] == k], [edit] returns
    normally; afterwards column [c] holds [v] at exactly the rows that
    matched, every other cell is what it was, the column names are the
    same, and the queue has grown by one modification whose scope is the
    one-element list [[c]]. *)
Theorem edit_overwrites_matching_rows
    (st : State) (v : value) (c ic : string) (k : value) (idcol col : Column) :
  lookup ic (items (frame st)) = Some idcol ->
  lookup c (items (frame st)) = Some col ->
  Exists (fun x => value_eqb x k = true) (data idcol) ->
  exists df',
    edit v c k ic st =
      (inr tt,
       {| frame := df';
          modification_queue :=
            modification_queue st ++
            [{| id := inode_id (frame st); scope := [c] |}] |})
    /\ columns df' = columns (frame st)
    /\ forall n i,
         cell df' n i =
         match cell (frame st) n i with
         | None => None
         | Some x =>
             if String.eqb n c && matches (frame st) ic k i then Some v else Some x
         end.
Proof.
  intros Hic Hc Hex.
  exists (with_items (frame st)
            (store c (setitem_mask col (column_eq idcol k) v) (items (frame st)))).
  split; [|split].
  - unfold edit, getitem. cbn. rewrite Hic. cbn.
    rewrite (mask_sum_pos _ _ Hex). rewrite Hc. reflexivity.
  - unfold columns. cbn. apply map_fst_store.
  - intros n i. unfold cell, matches, cell. cbn [items with_items].
    rewrite Hic.
    destruct (String.eqb_spec n c) as [->|Hne]; cbn [andb].
    + rewrite (lookup_store_same _ _ _ _ Hc), Hc. cbn [setitem_mask map_data data].
      rewrite nth_error_assign_mask.
      destruct (nth_error (data col) i) as [x|]; [|reflexivity].
      unfold column_eq. rewrite nth_error_map.
      destruct (nth_error (data idcol) i) as [y|]; cbn; [|reflexivity].
      now destruct (value_eqb y k).
    + rewrite (lookup_store_other _ _ _ _ Hne).
      destruct (lookup n (items (frame st))) as [c1|]; [|reflexivity].
      now destruct (nth_error (data c1) i).
Qed.

(** The edit scenario of Section 8: [id=[1,2,3]], [score=[10,20,30]],
    [edit(column="score", row_id=2, id_column="id", value=99)]. *)
Lemma edit_overwrites_matching_rows_scenario :
  Exists (fun x => value_eqb x (VInt 2) = true) (data (int_column [1; 2; 3]%Z)) /\
  exists df',
    edit (VInt 99) "score" (VInt 2) "id" (fresh scores) =
      (inr tt,
       {| frame := df';
          modification_queue := [{| id := "node0"; scope := ["score"] |}] |})
    /\ columns df' = ["id"; "score"]
    /\ forall n i,
         cell df' n i =
         match cell scores n i with
         | None => None
         | Some x =>
             if String.eqb n "score" && matches scores "id" (VInt 2) i
             then Some (VInt 99) else Some x
         end.
Proof.
  assert (Hex : Exists (fun x => value_eqb x (VInt 2) = true)
                  (data (int_column [1; 2; 3]%Z))).
  { apply Exists_cons_tl, Exists_cons_hd. reflexivity. }
  split; [exact Hex|].
  exact (edit_overwrites_matching_rows (fresh scores) (VInt 99) "score" "id"
           (VInt 2) (int_column [1; 2; 3]%Z) (int_column [10; 20; 30]%Z)
           eq_refl eq_refl Hex).
Defined.

(** The scenario evaluated: [score] becomes [[10, 99, 30]], [id] stays. *)
Example edit_scenario_cells :
  let st' := snd (edit (VInt 99) "score" (VInt 2) "id" (fresh scores)) in
  option_map data (lookup "score" (items (frame st'))) = Some (map VInt [10; 99; 30]%Z) /\
  option_map data (lookup "id" (items (frame st'))) = Some (map VInt [1; 2; 3]%Z) /\
  modification_queue st' = [{| id := "node0"; scope := ["score"] |}].
Proof. repeat split. Qed.

(** When the identifier column exists and no row has [df[ic] == k], the
    [raise] of line 167 is reached, and what escapes is the [ValueError] of
    the status lookup inside the exception's constructor; the state is the
    one the handler started from. *)
Lemma edit_no_match
    (st : State) (v : value) (c ic : string) (k : value) (idcol : Column) :
  lookup ic (items (frame st)) = Some idcol ->
  Forall (fun x => value_eqb x k = false) (data idcol) ->
  edit v c k ic st =
    (inl (ValueError
            (py_repr ("Row with id " ++ py_str k ++ " not found in column " ++ ic)
             ++ " is not a valid HTTPStatus")%string),
     st).
Proof.
  intros Hic Hnone. apply mask_sum_zero in Hnone.
  unfold edit, getitem. cbn. rewrite Hic. cbn. rewrite Hnone. reflexivity.
Qed.

(** C3. Editing an absent key:
    [edit(value=99, column="score", row_id=7, id_column="id")] on the frame
    [id=[1,2,3]], [score=[10,20,30]]. Nothing is changed and nothing is
    enqueued, but the error that escapes is not a not-found error: line 167
    passes the message to [HTTPException] as its status code and gives no
    detail, so the constructor fails in its status lookup with a
    [ValueError]. The column check of [_get_column_infos], in the same
    file, builds its exception with [status_code=404] and a detail, and
    that one is raised as written. *)
Theorem edit_absent_key_raises_status_lookup_error :
  edit (VInt 99) "score" (VInt 7) "id" (fresh scores) =
    (inl (ValueError "'Row with id 7 not found in column id' is not a valid HTTPStatus"),
     fresh scores)
  /\ (forall status_code detail,
        fst (edit (VInt 99) "score" (VInt 7) "id" (fresh scores))
        <> inl (HTTPException status_code detail))
  /\ requested_columns scores (Some ["nope"]) =
       inl (HTTPException (VInt 404)
              (Some "Requested columns ['nope'] do not exist in dataframe with id df0")).
Proof.
  split; [|split].
  - apply (edit_no_match (fresh scores) (VInt 99) "score" "id" (VInt 7)
             (int_column [1; 2; 3]%Z) eq_refl).
    repeat constructor.
  - intros status_code detail. cbn. discriminate.
  - reflexivity.
Qed.

(** ** [remove_row_by_index] *)

Lemma columns_map_items (f : list value -> list value) (df : DataFrame) :
  columns (map_items f df) = columns df.
Proof.
  unfold columns, map_items. cbn. rewrite map_map. reflexivity.
Qed.

Lemma row_map_items (f : list value -> list value) (df : DataFrame) (j : nat) :
  row (map_items f df) j =
  map (fun kc => (fst kc, nth_error (f (data (snd kc))) j)) (items df).
Proof.
  unfold row, map_items. cbn. rewrite map_map. reflexivity.
Qed.

Lemma arange_ne_drops (df : DataFrame) (row_index : Z) (n : string) (c : Column) :
  uniform df ->
  (0 <= row_index < Z.of_nat (len df))%Z ->
  In (n, c) (items df) ->
  select_mask (arange_ne (len df) row_index) (data c) =
  firstn (Z.to_nat row_index) (data c) ++ skipn (S (Z.to_nat row_index)) (data c).
Proof.
  intros Hu Hr Hin. unfold arange_ne.
  rewrite <- (Hu n c Hin), select_mask_arange.
  rewrite (Hu n c Hin), Nat.sub_0_r. cbn [Nat.add].
  destruct (Z.leb_spec (Z.of_nat 0) row_index); [|lia].
  destruct (Z.ltb_spec row_index (Z.of_nat (len df))); [|lia].
  reflexivity.
Qed.

(** The frame that line 147 binds to the local name [df]: on a frame whose
    columns all have [len df] rows and for [0 <= row_index < len df] it has
    the same column names and one row fewer, and its rows are the original
    rows other than [row_index], unchanged and in their original order. *)
Lemma filtered_frame_drops_row (df : DataFrame) (row_index : Z) :
  uniform df ->
  (0 <= row_index < Z.of_nat (len df))%Z ->
  let df' := getitem_mask df (arange_ne (len df) row_index) in
  columns df' = columns df
  /\ len df' = len df - 1
  /\ uniform df'
  /\ forall j, row df' j = row df (if j <? Z.to_nat row_index then j else S j).
Proof.
  intros Hu Hr df'. unfold df'.
  assert (Hlen : forall n c, In (n, c) (items df) ->
            List.length (select_mask (arange_ne (len df) row_index) (data c)) =
            len df - 1).
  { intros n c Hin. rewrite (arange_ne_drops df row_index n c Hu Hr Hin).
    rewrite <- (Hu n c Hin). apply length_drop. rewrite (Hu n c Hin). lia. }
  assert (Hlen' : len (getitem_mask df (arange_ne (len df) row_index)) = len df - 1).
  { unfold len at 1. unfold getitem_mask, map_items. cbn [items].
    destruct (items df) as [|[n c] rest] eqn:E.
    - unfold len in Hr. rewrite E in Hr. simpl in Hr. lia.
    - cbn [map fst snd map_data data]. apply (Hlen n c). now left. }
  split; [|split; [|split]].
  - apply columns_map_items.
  - exact Hlen'.
  - intros n c Hin. rewrite Hlen'.
    unfold getitem_mask, map_items in Hin. cbn [items] in Hin.
    apply in_map_iff in Hin. destruct Hin as ([n0 c0] & Heq & Hin0).
    cbn [fst snd] in Heq. injection Heq as <- <-.
    cbn [map_data data]. apply (Hlen n0 c0 Hin0).
  - intros j. unfold getitem_mask. rewrite row_map_items. unfold row.
    apply map_ext_in. intros [n c] Hin. cbn [fst snd].
    rewrite (arange_ne_drops df row_index n c Hu Hr Hin), nth_error_drop.
    now destruct (j <? Z.to_nat row_index).
Qed.

(** What the handler leaves behind, for every frame and every
    [row_index]: the frame object is the one it received, with all its
    rows, and the queue has one more modification, over all columns. *)
Lemma remove_row_by_index_state (st : State) (row_index : Z) :
  remove_row_by_index row_index st =
    (inr tt,
     {| frame := frame st;
        modification_queue :=
          modification_queue st ++
          [{| id := inode_id (frame st); scope := columns (frame st) |}] |}).
Proof.
  unfold remove_row_by_index. cbn -[getitem_mask columns arange_ne len].
  unfold getitem_mask. rewrite columns_map_items. reflexivity.
Qed.

(** Lengths of the columns of [scores]. *)
Lemma uniform_scores : uniform scores.
Proof.
  intros n c [[= <- <-]|[[= <- <-]|[]]]; reflexivity.
Qed.

(** C2. The deletion scenario of Section 8:
    [remove_row_by_index(row_index=1)] on the three-row frame
    [id=[1,2,3]], [score=[10,20,30]]. The handler returns nothing and
    enqueues one modification over all the columns, but the dataframe it
    was given still has its three rows, row 1 included: the two-row frame
    holding the original rows 0 and 2 is computed, bound to the handler's
    local name and dropped when the handler returns. *)
Theorem remove_row_by_index_keeps_all_rows :
  remove_row_by_index 1 (fresh scores) =
    (inr tt,
     {| frame := scores;
        modification_queue := [{| id := "node0"; scope := ["id"; "score"] |}] |})
  /\ len scores = 3
  /\ row scores 1 = [("id", Some (VInt 2)); ("score", Some (VInt 20))]
  /\ map (fun kc => (fst kc, data (snd kc)))
         (items (getitem_mask scores (arange_ne (len scores) 1))) =
       [("id", map VInt [1; 3]%Z); ("score", map VInt [10; 30]%Z)].
Proof.
  split; [exact (remove_row_by_index_state (fresh scores) 1)|].
  repeat split.
Qed.

(** A position outside [0 <= row_index < len df], such as [-1], matches no
    element of [np.arange(len(df))]: no row is dropped. *)
Lemma remove_row_by_index_out_of_range (st : State) (row_index : Z) (n : string) (c : Column) :
  uniform (frame st) ->
  (row_index < 0 \/ Z.of_nat (len (frame st)) <= row_index)%Z ->
  In (n, c) (items (frame st)) ->
  select_mask (arange_ne (len (frame st)) row_index) (data c) = data c.
Proof.
  intros Hu Hr Hin. unfold arange_ne.
  rewrite <- (Hu n c Hin), select_mask_arange, (Hu n c Hin). cbn [Nat.add].
  destruct (Z.leb_spec (Z.of_nat 0) row_index);
    destruct (Z.ltb_spec row_index (Z.of_nat (len (frame st))));
    cbn [andb]; try reflexivity; lia.
Qed.

(** ** [_get_column_infos] and [schema] *)

Section MapM.

Context {A B : Type} (f : A -> res B).

Lemma mapM_inr (l : list A) (ys : list B) :
  mapM f l = inr ys <-> Forall2 (fun x y => f x = inr y) l ys.
Proof.
  revert ys. induction l as [|x l IH]; intros ys; cbn.
  - split.
    + intros [= <-]. constructor.
    + intros F. inversion F. reflexivity.
  - split.
    + destruct (f x) as [e|y] eqn:Ex; [discriminate|].
      destruct (mapM f l) as [e|ys'] eqn:El; [discriminate|].
      intros [= <-]. constructor; [assumption|]. now apply IH.
    + intros F. inversion F as [|x0 y l0 ys' Hx Hl]; subst.
      rewrite Hx. apply IH in Hl. now rewrite Hl.
Qed.

Lemma mapM_total (l : list A) :
  (forall x, In x l -> exists y, f x = inr y) ->
  exists ys, mapM f l = inr ys.
Proof.
  induction l as [|x l IH]; intros Hall; cbn.
  - now exists [].
  - destruct (Hall x (or_introl eq_refl)) as (y & Hy).
    destruct IH as (ys & Hys); [intros; apply Hall; now right|].
    exists (y :: ys). now rewrite Hy, Hys.
Qed.

Lemma mapM_inl (l : list A) (e : exn) :
  mapM f l = inl e -> exists x, In x l /\ f x = inl e.
Proof.
  induction l as [|x l IH]; cbn; [discriminate|].
  destruct (f x) as [e'|y] eqn:Ex.
  - intros [= <-]. exists x. auto.
  - destruct (mapM f l) as [e'|ys]; [|discriminate].
    intros [= <-]. destruct (IH eq_refl) as (x' & Hin & Hx'). eauto.
Qed.

End MapM.

Lemma mapM_ext {A B} (f g : A -> res B) (l : list A) :
  (forall x, In x l -> f x = g x) -> mapM f l = mapM g l.
Proof.
  induction l as [|x l IH]; intros Hext; cbn; [reflexivity|].
  rewrite (Hext x (or_introl eq_refl)), IH; [reflexivity|].
  intros; apply Hext; now right.
Qed.

Lemma mapM_length {A B} (f : A -> res B) (l : list A) (ys : list B) :
  mapM f l = inr ys -> List.length ys = List.length l.
Proof.
  intros Hm. apply mapM_inr in Hm.
  induction Hm; cbn; [reflexivity|]. now f_equal.
Qed.

Lemma existsb_eqb_In (x : string) (l : list string) :
  existsb (String.eqb x) l = true <-> In x l.
Proof.
  rewrite existsb_exists. split.
  - intros (y & Hin & E). apply String.eqb_eq in E. now subst.
  - intros Hin. exists x. split; [assumption|apply String.eqb_refl].
Qed.

Lemma set_difference_empty (a b : list string) :
  (0 <? List.length (set_difference a b)) = false <-> incl a b.
Proof.
  unfold set_difference. rewrite Nat.ltb_ge. split.
  - intros Hlen x Hin.
    destruct (existsb (String.eqb x) b) eqn:E; [now apply existsb_eqb_In|].
    assert (Hx : In x (nodup string_dec
                         (filter (fun x => negb (existsb (String.eqb x) b)) a))).
    { apply nodup_In, filter_In. now rewrite E. }
    destruct (nodup _ _); [contradiction|simpl in Hlen; lia].
  - intros Hincl.
    replace (filter (fun x => negb (existsb (String.eqb x) b)) a) with (@nil string);
      [simpl; lia|].
    symmetry. induction a as [|x a IH]; [reflexivity|]. cbn.
    assert (E : existsb (String.eqb x) b = true).
    { apply existsb_eqb_In, Hincl. now left. }
    rewrite E. cbn. apply IH. intros y Hy. apply Hincl. now right.
Qed.

Lemma requested_columns_inr (df : DataFrame) (requested : option (list string))
    (l : list string) :
  requested_columns df requested = inr l ->
  l = match requested with Some l => l | None => columns df end.
Proof.
  unfold requested_columns. destruct requested as [cols|].
  - destruct (0 <? List.length (set_difference cols (columns df)));
      [discriminate|]. now intros [= <-].
  - now intros [= <-].
Qed.

Lemma column_info_name (df : DataFrame) (variants : option (list string))
    (names : list string) (infos : list ColumnInfo) :
  mapM (column_info df variants) names = inr infos -> map name infos = names.
Proof.
  intros Hm. apply mapM_inr in Hm.
  induction Hm as [|x y l l' Hxy F IH]; [reflexivity|].
  cbn. rewrite IH. f_equal. unfold column_info in Hxy. cbn in Hxy.
  destruct (getitem df x); [discriminate|]. now injection Hxy as <-.
Qed.

Lemma get_column_infos_names (df : DataFrame) (requested : option (list string))
    (variants : option (list string)) (infos : list ColumnInfo) :
  _get_column_infos df requested variants = inr infos ->
  map name infos =
  reported_names df (match requested with Some l => l | None => columns df end).
Proof.
  unfold _get_column_infos, reported_names.
  destruct (requested_columns df requested) as [e|l] eqn:Hreq; cbn; [discriminate|].
  apply requested_columns_inr in Hreq. subst l.
  destruct (primary_key_name df) as [pk|].
  - destruct (existsb (String.eqb pk) _); cbn [negb]; apply column_info_name.
  - apply column_info_name.
Qed.

(** ** Row selection as selection by a list of positions *)

Section Take.

Context {A : Type}.

Lemma take_cons (i : nat) (idxs : list nat) (l : list A) (x : A) :
  nth_error l i = Some x -> take (i :: idxs) l = x :: take idxs l.
Proof.
  intros Hx. unfold take. cbn. now rewrite Hx.
Qed.

Lemma nth_error_take (idxs : list nat) (l : list A) (j : nat) :
  Forall (fun i => i < List.length l) idxs ->
  nth_error (take idxs l) j =
  match nth_error idxs j with
  | Some i => nth_error l i
  | None => None
  end.
Proof.
  intros Hb. revert j. induction Hb as [|i idxs Hi Hb IH]; intros j.
  - now destruct j.
  - destruct (nth_error l i) as [x|] eqn:Ex;
      [|apply nth_error_None in Ex; lia].
    rewrite (take_cons _ _ _ _ Ex).
    destruct j as [|j]; cbn; [now rewrite Ex|apply IH].
Qed.

Lemma length_take (idxs : list nat) (l : list A) :
  Forall (fun i => i < List.length l) idxs ->
  List.length (take idxs l) = List.length idxs.
Proof.
  induction 1 as [|i idxs Hi Hb IH]; [reflexivity|].
  destruct (nth_error l i) as [x|] eqn:Ex;
    [|apply nth_error_None in Ex; lia].
  rewrite (take_cons _ _ _ _ Ex). cbn. now rewrite IH.
Qed.

Lemma take_app_skip (pre l : list A) (idxs : list nat) :
  take (map (fun i => List.length pre + i) idxs) (pre ++ l) = take idxs l.
Proof.
  unfold take. induction idxs as [|i idxs IH]; [reflexivity|].
  cbn. rewrite IH. f_equal.
  rewrite nth_error_app2 by lia.
  now replace (List.length pre + i - List.length pre) with i by lia.
Qed.

(** A mask selects the elements at the positions where it holds. *)
Lemma select_mask_take (mask : list bool) (l : list A) :
  List.length mask = List.length l ->
  select_mask mask l =
  take (filter (fun i => nth i mask false) (seq 0 (List.length mask))) l.
Proof.
  revert l. induction mask as [|b mask IH]; intros [|x l] Hlen;
    try discriminate; [reflexivity|].
  injection Hlen as Hlen.
  cbn [select_mask List.length seq filter nth].
  rewrite <- seq_shift, filter_map_swap.
  pose proof (take_app_skip [x] l
                (filter (fun i => nth i mask false) (seq 0 (List.length mask)))) as Hs.
  cbn [List.length Nat.add app] in Hs.
  change (fun i : nat => S i) with S in Hs.
  destruct b.
  - rewrite (take_cons 0 _ (x :: l) x eq_refl), Hs, <- IH by assumption.
    reflexivity.
  - rewrite Hs, <- IH by assumption. reflexivity.
Qed.

(** A slice selects the elements at a run of positions. *)
Lemma slice_take (a b : nat) (l : list A) :
  b <= List.length l ->
  firstn (b - a) (skipn a l) = take (seq a (b - a)) l.
Proof.
  intros Hb. remember (b - a) as n eqn:En.
  assert (Hn : a + n <= List.length l \/ n = 0) by lia. clear En Hb.
  revert a Hn. induction n as [|n IH]; intros a Hn; [reflexivity|].
  destruct Hn as [Hn|]; [|discriminate].
  destruct (nth_error l a) as [x|] eqn:Ex;
    [|apply nth_error_None in Ex; lia].
  cbn [seq]. rewrite (take_cons _ _ _ _ Ex), <- IH by lia.
  clear IH. revert a Hn Ex. induction l as [|y l IHl]; intros a Hn Ex.
  - now destruct a.
  - destruct a as [|a]; cbn in *.
    + now injection Ex as ->.
    + apply IHl; [lia|assumption].
Qed.

End Take.

Lemma filter_seq_bounded (p : nat -> bool) (n : nat) :
  Forall (fun i => i < n) (filter p (seq 0 n)).
Proof.
  apply Forall_forall. intros i Hi. apply filter_In in Hi.
  destruct Hi as [Hi _]. apply in_seq in Hi. lia.
Qed.

Lemma map_items_ext (f g : list value -> list value) (df : DataFrame) :
  (forall n c, In (n, c) (items df) -> f (data c) = g (data c)) ->
  map_items f df = map_items g df.
Proof.
  intros Hext. unfold map_items. f_equal.
  apply map_ext_in. intros [n c] Hin. cbn. unfold map_data.
  now rewrite (Hext n c Hin).
Qed.

Lemma lookup_map_items (f : list value -> list value) (df : DataFrame) (n : string) :
  lookup n (items (map_items f df)) = option_map (map_data f) (lookup n (items df)).
Proof.
  unfold map_items. cbn [items].
  induction (items df) as [|[k c] l IH]; [reflexivity|].
  cbn. now destruct (String.eqb k n).
Qed.

Lemma len_take (df : DataFrame) (idxs : list nat) :
  uniform df ->
  Forall (fun i => i < len df) idxs ->
  len (map_items (take idxs) df) = List.length idxs.
Proof.
  intros Hu Hb. unfold len at 1, map_items. cbn [items].
  destruct (items df) as [|[n c] rest] eqn:E.
  - unfold len in Hb. rewrite E in Hb. destruct Hb as [|i idxs Hi _]; [reflexivity|lia].
  - cbn. apply length_take. rewrite (Hu n c); [assumption|].
    rewrite E. now left.
Qed.

(** ** Column selection by name list *)

Lemma get_column_infos_inv (df : DataFrame) (requested : option (list string))
    (variants : option (list string)) (infos : list ColumnInfo) :
  _get_column_infos df requested variants = inr infos ->
  mapM (column_info df variants) (map name infos) = inr infos.
Proof.
  intros H. pose proof H as Hn. revert H.
  unfold _get_column_infos.
  destruct (requested_columns df requested) as [e|l]; cbn; [discriminate|].
  intros Hm. now rewrite (column_info_name _ _ _ _ Hm).
Qed.

Lemma column_info_lookup (df : DataFrame) (variants : option (list string))
    (names : list string) (infos : list ColumnInfo) :
  mapM (column_info df variants) names = inr infos ->
  forall n, In n names -> exists c, lookup n (items df) = Some c.
Proof.
  intros Hm n Hin. apply mapM_inr in Hm.
  induction Hm as [|x y l l' Hxy F IH]; [contradiction|].
  destruct Hin as [->|Hin]; [|now apply IH].
  unfold column_info, getitem in Hxy.
  destruct (lookup n (items df)) as [c|]; [eauto|discriminate].
Qed.

Lemma getitem_columns_ok (df : DataFrame) (names : list string) :
  (forall n, In n names -> exists c, lookup n (items df) = Some c) ->
  exists df1, getitem_columns df names = inr df1 /\ projected df names df1.
Proof.
  intros Hall.
  assert (Hcols : exists cols,
            mapM (fun n => c <- getitem df n ;; ret (n, c)) names = inr cols /\
            map fst cols = names /\
            (forall n c, In (n, c) cols -> lookup n (items df) = Some c) /\
            (forall n, In n names -> lookup n cols = lookup n (items df))).
  { induction names as [|n names IH].
    - exists []. cbn. repeat split; auto; contradiction.
    - destruct IH as (cols & Hm & Hf & Hin & Hl);
        [intros; apply Hall; now right|].
      destruct (Hall n (or_introl eq_refl)) as (c & Hc).
      exists ((n, c) :: cols). cbn [mapM]. unfold getitem at 1. rewrite Hc.
      cbn [bind ret res_Monad] in Hm |- *. rewrite Hm. cbn [map fst].
      repeat split.
      + now rewrite Hf.
      + intros n' c' [[= <- <-]|H']; [assumption|now apply Hin].
      + intros n' [<-|H']; cbn [lookup].
        * now rewrite String.eqb_refl.
        * destruct (String.eqb_spec n n') as [<-|Hne]; [now rewrite Hc|].
          now apply Hl. }
  destruct Hcols as (cols & Hm & Hf & Hin & Hl).
  eexists. unfold getitem_columns. rewrite Hm. cbn. split; [reflexivity|].
  unfold projected, columns. cbn. auto.
Qed.

Lemma projected_uniform (df df1 : DataFrame) (names : list string) :
  uniform df -> projected df names df1 ->
  uniform df1 /\ (names <> [] -> len df1 = len df).
Proof.
  intros Hu (Hc & Hin & _ & _).
  assert (Hlen : forall n c, In (n, c) (items df1) -> List.length (data c) = len df).
  { intros n c H. apply Hin, lookup_In in H. now apply (Hu n c). }
  assert (Hl1 : items df1 <> [] -> len df1 = len df).
  { unfold len at 1. destruct (items df1) as [|[n c] rest] eqn:E; [congruence|].
    intros _. apply (Hlen n c). now left. }
  split.
  - intros n c H. rewrite Hl1; [now apply (Hlen n c)|].
    intros E. rewrite E in H. contradiction.
  - intros Hne. apply Hl1. intros E. apply Hne. rewrite <- Hc.
    unfold columns. now rewrite E.
Qed.

(** ** [rows]: what the row selection yields *)

Lemma norm_index_bounded (n : nat) (p : list Z) (idxs : list nat) :
  mapM (norm_index n) p = inr idxs -> Forall (fun i => i < n) idxs.
Proof.
  intros Hm. apply mapM_inr in Hm.
  induction Hm as [|z i l l' Hzi F IH]; constructor; [|assumption].
  unfold norm_index in Hzi.
  destruct ((0 <=? z)%Z && (z <? Z.of_nat n)%Z) eqn:E1.
  - injection Hzi as <-. apply andb_prop in E1. lia.
  - destruct ((- Z.of_nat n <=? z)%Z && (z <? 0)%Z) eqn:E2; [|discriminate].
    injection Hzi as <-. apply andb_prop in E2. lia.
Qed.

Lemma index_of_bounded (k : value) (l : list value) (i : nat) :
  index_of k l = Some i -> i < List.length l.
Proof.
  revert i. induction l as [|x l IH]; intros i; cbn; [discriminate|].
  destruct (value_eqb x k).
  - intros [= <-]. lia.
  - destruct (index_of k l) as [j|]; cbn; [|discriminate].
    intros [= <-]. specialize (IH j eq_refl). lia.
Qed.

Lemma clamp_le (n : nat) (i : Z) : clamp n i <= n.
Proof.
  unfold clamp. destruct (i <? 0)%Z eqn:E; lia.
Qed.

(** Every successful row selection of [rows] is a selection by a list of
    positions of the frame. *)
Lemma select_rows_take (df : DataFrame) (start end_ : option Z)
    (posidxs : option (list Z)) (key_column : option string)
    (keyidxs : option (list value)) (df2 : DataFrame) (p : option (list Z)) :
  uniform df ->
  select_rows df start end_ posidxs key_column keyidxs = inr (df2, p) ->
  exists idxs,
    Forall (fun i => i < len df) idxs /\ df2 = map_items (take idxs) df.
Proof.
  intros Hu. unfold select_rows.
  destruct posidxs as [pos|].
  - unfold getitem_posidxs.
    destruct (mapM (norm_index (len df)) pos) as [e|idxs] eqn:Hm; cbn;
      [discriminate|].
    intros [= <- _]. exists idxs. split; [|reflexivity].
    now apply (norm_index_bounded _ pos).
  - destruct start as [s|].
    + intros [= <- _]. unfold getitem_slice.
      set (e := match end_ with
                | Some e => Z.min e (Z.of_nat (len df))
                | None => Z.of_nat (len df)
                end).
      exists (seq (clamp (len df) s) (clamp (len df) e - clamp (len df) s)).
      split.
      * apply Forall_forall. intros i Hi. apply in_seq in Hi.
        pose proof (clamp_le (len df) e). lia.
      * apply map_items_ext. intros n c Hin. apply slice_take.
        rewrite (Hu n c Hin). apply clamp_le.
    + destruct keyidxs as [keys|]; [|discriminate].
      destruct key_column as [kc|].
      * unfold getitem.
        destruct (lookup kc (items df)) as [c|] eqn:Hc; cbn; [|discriminate].
        unfold isin. destruct (pandas c); cbn; [|discriminate].
        set (mask := map (fun x => existsb (value_eqb x) keys) (data c)).
        intros [= <- _].
        exists (filter (fun i => nth i mask false) (seq 0 (List.length mask))).
        assert (Hlen : List.length mask = len df).
        { unfold mask. rewrite length_map. apply lookup_In in Hc.
          now apply (Hu kc c). }
        split.
        -- rewrite <- Hlen. apply filter_seq_bounded.
        -- apply map_items_ext. intros n c' Hin. apply select_mask_take.
           now rewrite Hlen, (Hu n c' Hin).
      * destruct (primary_key_name df) as [pk|] eqn:Hpk; [|discriminate].
        unfold loc. rewrite Hpk. unfold getitem.
        destruct (lookup pk (items df)) as [c|] eqn:Hc; cbn; [|discriminate].
        destruct (mapM _ keys) as [e|idxs] eqn:Hm; cbn; [discriminate|].
        intros [= <- _]. exists idxs. split; [|reflexivity].
        apply mapM_inr in Hm. apply lookup_In in Hc.
        rewrite <- (Hu pk c Hc). clear - Hm.
        induction Hm as [|k i l l' Hki F IH]; constructor; [|assumption].
        destruct (index_of k (data c)) as [j|] eqn:Ej; [|discriminate].
        injection Hki as <-. now apply (index_of_bounded k).
Qed.

Lemma mapM_seq_nth {B} (f g : nat -> res B) (idxs : list nat) (s : nat) :
  (forall j i, nth_error idxs j = Some i -> f (s + j) = g i) ->
  mapM f (seq s (List.length idxs)) = mapM g idxs.
Proof.
  revert s. induction idxs as [|i idxs IH]; intros s Hfg; [reflexivity|].
  cbn [List.length seq mapM].
  rewrite <- (Hfg 0 i eq_refl), Nat.add_0_r.
  rewrite (IH (S s)); [reflexivity|].
  intros j i' Hj. rewrite <- (Hfg (S j) i' Hj). f_equal. lia.
Qed.

Section Encode.

Variables (df : DataFrame) (infos : list ColumnInfo) (variants : option (list string)).
Hypothesis Hu : uniform df.
Hypothesis Hnames :
  forall info, In info infos -> exists c, lookup (name info) (items df) = Some c.

Lemma encode_row_ok (i : nat) :
  i < len df -> exists r, encode_row df infos variants i = inr r.
Proof.
  intros Hi. apply mapM_total. intros info Hin.
  destruct (Hnames info Hin) as (c & Hc).
  unfold getitem. rewrite Hc. cbn.
  destruct (nth_error (data c) i) as [v|] eqn:Ev; [eauto|].
  apply nth_error_None in Ev. apply lookup_In in Hc.
  rewrite (Hu _ _ Hc) in Ev. lia.
Qed.

Lemma encode_row_take (idxs : list nat) (j i : nat) :
  Forall (fun i => i < len df) idxs ->
  nth_error idxs j = Some i ->
  encode_row (map_items (take idxs) df) infos variants j =
  encode_row df infos variants i.
Proof.
  intros Hb Hj. apply mapM_ext. intros info Hin.
  destruct (Hnames info Hin) as (c & Hc).
  unfold getitem. rewrite lookup_map_items, Hc. cbn.
  pose proof (lookup_In _ _ _ Hc) as Hlen. apply Hu in Hlen.
  rewrite nth_error_take, Hj by now rewrite Hlen.
  destruct (nth_error (data c) i) as [v|] eqn:Ev; [reflexivity|].
  apply nth_error_None in Ev. apply nth_error_In in Hj.
  rewrite Forall_forall in Hb. specialize (Hb i Hj). lia.
Qed.

Lemma rows_of_take (idxs : list nat) :
  Forall (fun i => i < len df) idxs ->
  exists rs,
    mapM (encode_row df infos variants) idxs = inr rs /\
    mapM (encode_row (map_items (take idxs) df) infos variants)
         (seq 0 (len (map_items (take idxs) df))) = inr rs.
Proof.
  intros Hb.
  destruct (mapM_total (encode_row df infos variants) idxs) as (rs & Hrs).
  { intros i Hi. apply encode_row_ok.
    rewrite Forall_forall in Hb. now apply Hb. }
  exists rs. split; [assumption|].
  rewrite (len_take df idxs Hu Hb), <- Hrs.
  apply mapM_seq_nth. intros j i Hj. now apply encode_row_take.
Qed.

End Encode.

(** What [rows] returns once the column infos are there: the error of the
    row selection, or the encodings of the selected rows. The state is
    never touched. *)
Lemma rows_spec (st : State) (start end_ : option Z) (posidxs_ : option (list Z))
    (key_column : option string) (keyidxs : option (list value))
    (requested variants : option (list string)) (infos : list ColumnInfo) :
  uniform (frame st) ->
  _get_column_infos (frame st) requested variants = inr infos ->
  exists df1,
    getitem_columns (frame st) (map name infos) = inr df1 /\
    projected (frame st) (map name infos) df1 /\
    uniform df1 /\
    match select_rows df1 start end_ posidxs_ key_column keyidxs with
    | inl e =>
        rows start end_ posidxs_ key_column keyidxs requested variants st =
          (inl e, st)
    | inr (df2, p) =>
        exists rs,
          mapM (encode_row df2 infos variants) (seq 0 (len df2)) = inr rs /\
          rows start end_ posidxs_ key_column keyidxs requested variants st =
            (inr {| column_infos := infos;
                    posidxs := p;
                    rows_ := rs;
                    full_length := len (frame st);
                    primary_key := primary_key_name df2 |}, st)
    end.
Proof.
  intros Hu Hinfos.
  pose proof (column_info_lookup _ _ _ _ (get_column_infos_inv _ _ _ _ Hinfos))
    as Hlook.
  destruct (getitem_columns_ok (frame st) (map name infos) Hlook) as (df1 & Hg & Hp).
  destruct (projected_uniform _ _ _ Hu Hp) as (Hu1 & _).
  exists df1. repeat split; try assumption; try apply Hp.
  assert (Hnames : forall info, In info infos ->
            exists c, lookup (name info) (items df1) = Some c).
  { intros info Hin. destruct Hp as (_ & _ & Hl & _).
    rewrite Hl by now apply in_map. apply Hlook. now apply in_map. }
  unfold rows, lift, get_frame. cbn [bind M_Monad].
  rewrite Hinfos. cbn [bind res_Monad]. rewrite Hg. cbn [bind res_Monad].
  destruct (select_rows df1 start end_ posidxs_ key_column keyidxs)
    as [e|[df2 p]] eqn:Hsel; [reflexivity|].
  destruct (select_rows_take _ _ _ _ _ _ _ _ Hu1 Hsel) as (idxs & Hb & ->).
  destruct (rows_of_take df1 infos variants Hu1 Hnames idxs Hb) as (rs & Hrs & Hrows).
  exists rs. split; [assumption|].
  cbn [bind res_Monad fst snd]. rewrite Hrows. reflexivity.
Qed.

Lemma encode_row_projected (df df1 : DataFrame) (infos : list ColumnInfo)
    (variants : option (list string)) (i : nat) :
  projected df (map name infos) df1 ->
  encode_row df1 infos variants i = encode_row df infos variants i.
Proof.
  intros (_ & _ & Hl & _). apply mapM_ext. intros info Hin.
  unfold getitem. rewrite Hl by now apply in_map. reflexivity.
Qed.

Lemma index_of_None (k : value) (l : list value) :
  index_of k l = None <-> Forall (fun x => value_eqb x k = false) l.
Proof.
  induction l as [|x l IH]; cbn.
  - split; auto.
  - destruct (value_eqb x k) eqn:E.
    + split; [discriminate|]. intros F. inversion F. congruence.
    + destruct (index_of k l); cbn.
      * split; [discriminate|]. intros F. inversion F as [|? ? _ F'].
        apply IH in F'. discriminate.
      * split; [|reflexivity]. intros _. constructor; [assumption|now apply IH].
Qed.

Lemma reported_names_primary_key (df : DataFrame) (requested : list string) (pk : string) :
  primary_key_name df = Some pk -> In pk (reported_names df requested).
Proof.
  intros Hpk. unfold reported_names. rewrite Hpk.
  destruct (existsb (String.eqb pk) _) eqn:E.
  - now apply existsb_eqb_In.
  - apply in_or_app. right. now left.
Qed.

(** ** What a response shows of a row *)

Lemma Forall2_nth_error_l {A B} (R : A -> B -> Prop) (l : list A) (l' : list B)
    (j : nat) (a : A) :
  Forall2 R l l' -> nth_error l j = Some a ->
  exists b, nth_error l' j = Some b /\ R a b.
Proof.
  intros F. revert j. induction F as [|x y l l' Hxy F IH]; intros j Hj.
  - now destruct j.
  - destruct j as [|j]; cbn in *.
    + injection Hj as ->. eauto.
    + now apply IH.
Qed.

Lemma encode_row_shows (df : DataFrame) (infos : list ColumnInfo)
    (variants : option (list string)) (i : nat) (r : list value) :
  encode_row df infos variants i = inr r -> shows_row df infos variants i r.
Proof.
  intros Hr. unfold encode_row in Hr. split.
  - now apply mapM_length in Hr.
  - apply mapM_inr in Hr. intros j info Hj.
    destruct (Forall2_nth_error_l _ _ _ _ _ Hr Hj) as (y & Hy & Hcell).
    unfold getitem in Hcell.
    destruct (lookup (name info) (items df)) as [col|]; [|discriminate].
    cbn [ret bind res_Monad] in Hcell.
    destruct (nth_error (data col) i) as [x|] eqn:Ex; [|discriminate].
    injection Hcell as <-. exists col, x. auto.
Qed.

Lemma encode_rows_show (df : DataFrame) (infos : list ColumnInfo)
    (variants : option (list string)) (idxs : list nat) (rs : list (list value)) :
  mapM (encode_row df infos variants) idxs = inr rs ->
  shows_rows df infos variants idxs rs.
Proof.
  intros Hrs. apply mapM_inr in Hrs. unfold shows_rows.
  induction Hrs as [|i r l l' Hir F IH]; constructor; [|assumption].
  now apply encode_row_shows.
Qed.

(** The rows a request returns when its selection is the selection of the
    positions [idxs]: their encodings, read in the frame itself. *)
Lemma rows_of_positions (df df1 : DataFrame) (infos : list ColumnInfo)
    (requested variants : option (list string)) (idxs : list nat)
    (rs : list (list value)) :
  _get_column_infos df requested variants = inr infos ->
  projected df (map name infos) df1 ->
  uniform df1 ->
  Forall (fun i => i < len df1) idxs ->
  mapM (encode_row (map_items (take idxs) df1) infos variants)
       (seq 0 (len (map_items (take idxs) df1))) = inr rs ->
  mapM (encode_row df infos variants) idxs = inr rs.
Proof.
  intros Hinfos Hp Hu1 Hb Hrs.
  pose proof (column_info_lookup _ _ _ _ (get_column_infos_inv _ _ _ _ Hinfos))
    as Hlook.
  assert (Hnames : forall info, In info infos ->
            exists c, lookup (name info) (items df1) = Some c).
  { intros info Hin. destruct Hp as (_ & _ & Hl & _).
    rewrite Hl by now apply in_map. apply Hlook. now apply in_map. }
  destruct (rows_of_take df1 infos variants Hu1 Hnames idxs Hb) as (rs' & H1 & H2).
  rewrite H2 in Hrs. injection Hrs as <-. rewrite <- H1.
  apply mapM_ext. intros i _. symmetry. now apply encode_row_projected.
Qed.

Lemma projected_len (df df1 : DataFrame) (infos : list ColumnInfo) :
  uniform df -> projected df (map name infos) df1 -> infos <> [] ->
  len df1 = len df.
Proof.
  intros Hu Hp Hne. apply (projected_uniform _ _ _ Hu Hp).
  destruct infos; [congruence|discriminate].
Qed.

(** The rows of a response whose selection is the selection of the
    positions [idxs] show the rows of the frame at these positions. *)
Lemma rows_show_positions (df df1 : DataFrame) (infos : list ColumnInfo)
    (requested variants : option (list string)) (idxs : list nat)
    (rs : list (list value)) :
  _get_column_infos df requested variants = inr infos ->
  projected df (map name infos) df1 ->
  uniform df1 ->
  Forall (fun i => i < len df1) idxs ->
  mapM (encode_row (map_items (take idxs) df1) infos variants)
       (seq 0 (len (map_items (take idxs) df1))) = inr rs ->
  shows_rows df infos variants idxs rs.
Proof.
  intros Hinfos Hp Hu1 Hb Hrs. apply encode_rows_show.
  now apply (rows_of_positions df df1 infos requested variants idxs rs).
Qed.

(** ** [rows] by key *)

(** C4, as the code has it. Selecting rows by a list of keys, on a frame
    whose columns have equal lengths and for a request whose column infos
    are produced.
    - An explicit [key_column] is looked up in the frame already cut down
      to the returned columns. When it is one of them and is a pandas
      column, the request succeeds whatever the keys are: the response
      shows exactly the rows whose key-column value is one of the requested
      keys, in frame order; requested keys that occur in no row are dropped
      silently.
    - When the [key_column] is not one of the returned columns, the request
      raises [KeyError] for it, whatever the keys are.
    - Without [key_column], on a frame with a primary key, a requested key
      that is absent from the primary-key column makes the request raise
      [KeyError] for such a key. *)
Theorem rows_key_lookup_modes
    (st : State) (keys : list value) (requested variants : option (list string))
    (infos : list ColumnInfo) :
  uniform (frame st) ->
  _get_column_infos (frame st) requested variants = inr infos ->
  (forall kc c,
     In kc (map name infos) ->
     lookup kc (items (frame st)) = Some c ->
     pandas c = true ->
     exists resp,
       rows None None None (Some kc) (Some keys) requested variants st = (inr resp, st) /\
       column_infos resp = infos /\
       shows_rows (frame st) infos variants
         (filter (key_in (frame st) kc keys) (seq 0 (len (frame st)))) (rows_ resp))
  /\
  (forall kc,
     ~ In kc (map name infos) ->
     rows None None None (Some kc) (Some keys) requested variants st =
       (inl (KeyError (VStr kc)), st))
  /\
  (forall pk pkc,
     primary_key_name (frame st) = Some pk ->
     lookup pk (items (frame st)) = Some pkc ->
     Exists (fun k => Forall (fun x => value_eqb x k = false) (data pkc)) keys ->
     exists k,
       In k keys /\
       Forall (fun x => value_eqb x k = false) (data pkc) /\
       rows None None None None (Some keys) requested variants st =
         (inl (KeyError k), st)).
Proof.
  intros Hu Hinfos. split; [|split].
  - intros kc c Hkc Hc Hpandas.
    destruct (rows_spec st None None None (Some kc) (Some keys) requested variants
                infos Hu Hinfos) as (df1 & _ & Hp & Hu1 & Hsel).
    assert (Hc1 : lookup kc (items df1) = Some c).
    { destruct Hp as (_ & _ & Hl & _). now rewrite Hl. }
    assert (Hlen1 : len df1 = len (frame st)).
    { apply (projected_uniform _ _ _ Hu Hp). intros E. now rewrite E in Hkc. }
    set (mask := map (fun x => existsb (value_eqb x) keys) (data c)).
    assert (Hmask : List.length mask = len df1).
    { unfold mask. rewrite length_map. apply (Hu1 kc c). now apply lookup_In. }
    cbn [select_rows] in Hsel. unfold getitem, isin in Hsel.
    rewrite Hc1 in Hsel. cbn [bind ret res_Monad] in Hsel.
    rewrite Hpandas in Hsel. cbn [bind ret res_Monad] in Hsel.
    fold mask in Hsel. destruct Hsel as (rs & Hrs & Hrows).
    set (pos := filter (fun i => nth i mask false) (seq 0 (List.length mask))).
    assert (Hdf2 : getitem_mask df1 mask = map_items (take pos) df1).
    { apply map_items_ext. intros n c' Hin. apply select_mask_take.
      now rewrite Hmask, (Hu1 n c' Hin). }
    assert (Hb : Forall (fun i => i < len df1) pos).
    { rewrite <- Hmask. apply filter_seq_bounded. }
    rewrite Hdf2 in Hrs.
    pose proof (rows_show_positions _ _ _ _ _ _ _ Hinfos Hp Hu1 Hb Hrs) as Hshow.
    eexists. split; [exact Hrows|]. split; [reflexivity|].
    cbn [rows_].
    replace (filter (key_in (frame st) kc keys) (seq 0 (len (frame st)))) with pos;
      [exact Hshow|].
    unfold pos. rewrite Hmask, Hlen1.
    apply filter_ext. intros i. unfold key_in, cell. rewrite Hc.
    unfold mask. destruct (nth_error (data c) i) as [x|] eqn:Ex.
    + now rewrite (nth_error_nth _ _ _ (map_nth_error _ _ _ Ex)).
    + apply nth_overflow. rewrite length_map. now apply nth_error_None.
  - intros kc Hkc.
    destruct (rows_spec st None None None (Some kc) (Some keys) requested variants
                infos Hu Hinfos) as (df1 & _ & Hp & _ & Hsel).
    assert (Hc1 : lookup kc (items df1) = None).
    { apply lookup_None. destruct Hp as (Hcols & _). unfold columns in Hcols.
      now rewrite Hcols. }
    cbn [select_rows] in Hsel. unfold getitem in Hsel. rewrite Hc1 in Hsel.
    exact Hsel.
  - intros pk pkc Hpk Hpkc Habs.
    destruct (rows_spec st None None None None (Some keys) requested variants
                infos Hu Hinfos) as (df1 & _ & Hp & Hu1 & Hsel).
    assert (Hin : In pk (map name infos)).
    { rewrite (get_column_infos_names _ _ _ _ Hinfos).
      now apply reported_names_primary_key. }
    assert (Hpk1 : primary_key_name df1 = Some pk).
    { destruct Hp as (_ & _ & _ & ->). rewrite Hpk.
      apply existsb_eqb_In in Hin. now rewrite Hin. }
    assert (Hc1 : lookup pk (items df1) = Some pkc).
    { destruct Hp as (_ & _ & Hl & _). now rewrite Hl. }
    cbn [select_rows] in Hsel. rewrite Hpk1 in Hsel. unfold loc in Hsel.
    rewrite Hpk1 in Hsel. unfold getitem in Hsel. rewrite Hc1 in Hsel.
    cbn [bind ret res_Monad] in Hsel.
    destruct (mapM _ keys) as [e|idxs] eqn:Hm.
    + cbn [bind res_Monad] in Hsel.
      apply mapM_inl in Hm. destruct Hm as (k & Hk & Hf).
      destruct (index_of k (data pkc)) eqn:Ek; [discriminate|].
      injection Hf as <-. exists k. split; [assumption|].
      split; [now apply index_of_None|exact Hsel].
    + exfalso. apply mapM_inr in Hm. apply Exists_exists in Habs.
      destruct Habs as (k & Hk & Hnone). apply index_of_None in Hnone.
      clear - Hm Hk Hnone.
      induction Hm as [|k' i l l' Hki F IH]; [contradiction|].
      destruct Hk as [->|Hk]; [|now apply IH].
      rewrite Hnone in Hki. discriminate.
Qed.

Lemma rows_key_lookup_modes_scenario :
  uniform keyed_scores /\
  _get_column_infos keyed_scores None None = inr scores_infos /\
  (exists resp,
     rows None None None (Some "id") (Some [VInt 1; VInt 9]) None None
          (fresh keyed_scores) = (inr resp, fresh keyed_scores) /\
     column_infos resp = scores_infos /\
     shows_rows keyed_scores scores_infos None
       (filter (key_in keyed_scores "id" [VInt 1; VInt 9]) (seq 0 3)) (rows_ resp)) /\
  rows None None None (Some "nope") (Some [VInt 1; VInt 9]) None None
       (fresh keyed_scores) = (inl (KeyError (VStr "nope")), fresh keyed_scores) /\
  (exists k,
     In k [VInt 1; VInt 9] /\
     Forall (fun x => value_eqb x k = false) (data (int_column [1; 2; 3]%Z)) /\
     rows None None None None (Some [VInt 1; VInt 9]) None None (fresh keyed_scores) =
       (inl (KeyError k), fresh keyed_scores)).
Proof.
  assert (Hu : uniform keyed_scores) by exact uniform_scores.
  assert (Hi : _get_column_infos keyed_scores None None = inr scores_infos)
    by reflexivity.
  pose proof (rows_key_lookup_modes (fresh keyed_scores) [VInt 1; VInt 9] None None
                scores_infos Hu Hi) as (Hkey & Hout & Hpk).
  split; [exact Hu|]. split; [exact Hi|]. split; [|split].
  - apply (Hkey "id" (int_column [1; 2; 3]%Z)); [cbn; auto|reflexivity|reflexivity].
  - apply (Hout "nope"). cbn. intuition discriminate.
  - apply (Hpk "id" (int_column [1; 2; 3]%Z) eq_refl eq_refl).
    apply Exists_cons_tl, Exists_cons_hd. repeat constructor.
Defined.

(** C4 as stated does not hold: under an explicit [key_column] the request
    does not always return the rows whose key is among the requested ones.
    The key column is looked up after the frame has been cut down to the
    requested columns, so a key column of the frame that is not requested
    makes the request fail, although every requested key is in a row. *)
Lemma rows_key_column_outside_requested_columns :
  ~ (forall (st : State) (kc : string) (keys : list value) (requested : list string)
            (variants : option (list string)) (c : Column),
       uniform (frame st) ->
       incl requested (columns (frame st)) ->
       lookup kc (items (frame st)) = Some c ->
       pandas c = true ->
       exists resp,
         fst (rows None None None (Some kc) (Some keys) (Some requested) variants st)
         = inr resp).
Proof.
  intros H.
  destruct (H (fresh scores) "id" [VInt 1] ["score"] None (int_column [1; 2; 3]%Z))
    as (resp & Hr).
  - exact uniform_scores.
  - intros n [<-|[]]. cbn. auto.
  - reflexivity.
  - reflexivity.
  - discriminate Hr.
Qed.

(** The two modes evaluated on the keyed frame for the keys [[1, 9]], of
    which 9 is in no row: one row comes back under [key_column="id"], and
    the primary-key lookup raises. *)
Example rows_by_key_column_drops_absent_key :
  match fst (rows None None None (Some "id") (Some [VInt 1; VInt 9]) None None
               (fresh keyed_scores)) with
  | inr resp => rows_ resp = [[VInt 1; VInt 10]]
  | inl _ => False
  end.
Proof. reflexivity. Qed.

Example rows_by_primary_key_raises_on_absent_key :
  fst (rows None None None None (Some [VInt 1; VInt 9]) None None (fresh keyed_scores))
  = inl (KeyError (VInt 9)).
Proof. reflexivity. Qed.

(** An explicit [key_column] outside the reported columns is looked up in
    the frame already cut down to them, and is not found there. *)
Example rows_key_column_not_reported :
  fst (rows None None None (Some "id") (Some [VInt 1]) (Some ["score"]) None
         (fresh scores))
  = inl (KeyError (VStr "id")).
Proof. reflexivity. Qed.

(** ** The column check of [schema] and [rows] *)

Lemma requested_columns_absent (df : DataFrame) (requested : list string) (n : string) :
  In n requested -> ~ In n (columns df) ->
  requested_columns df (Some requested) =
    inl (HTTPException (VInt 404)
           (Some ("Requested columns " ++ py_str_list requested
                  ++ " do not exist in dataframe with id " ++ df_id df)%string)).
Proof.
  intros Hin Hout. unfold requested_columns.
  destruct (0 <? List.length (set_difference requested (columns df))) eqn:E;
    [reflexivity|].
  apply set_difference_empty in E. exfalso. auto.
Qed.

Lemma requested_columns_present (df : DataFrame) (requested : list string) :
  incl requested (columns df) ->
  requested_columns df (Some requested) = inr requested.
Proof.
  intros Hincl. unfold requested_columns.
  now rewrite (proj2 (set_difference_empty _ _) Hincl).
Qed.

Lemma reported_names_incl (df : DataFrame) (requested : list string) :
  incl requested (columns df) ->
  (forall pk, primary_key_name df = Some pk -> In pk (columns df)) ->
  incl (reported_names df requested) (columns df).
Proof.
  intros Hincl Hpk n. unfold reported_names.
  assert (Hkept : forall m, In m (filter (fun c => negb (startswith_underscore c))
                                   requested) -> In m (columns df)).
  { intros m Hm. apply filter_In in Hm. now apply Hincl. }
  destruct (primary_key_name df) as [pk|]; [|apply Hkept].
  destruct (existsb (String.eqb pk) _); [apply Hkept|].
  intros Hn. apply in_app_or in Hn. destruct Hn as [Hn|[<-|[]]]; auto.
Qed.

Lemma get_column_infos_unfold (df : DataFrame) (requested : list string)
    (variants : option (list string)) :
  requested_columns df (Some requested) = inr requested ->
  _get_column_infos df (Some requested) variants =
  mapM (column_info df variants) (reported_names df requested).
Proof.
  intros Hreq. unfold _get_column_infos, reported_names. rewrite Hreq.
  cbn [bind res_Monad].
  destruct (primary_key_name df) as [pk|]; [|reflexivity].
  now destruct (existsb (String.eqb pk) _).
Qed.

Lemma get_column_infos_ok (df : DataFrame) (requested : list string)
    (variants : option (list string)) :
  incl requested (columns df) ->
  (forall pk, primary_key_name df = Some pk -> In pk (columns df)) ->
  exists infos, _get_column_infos df (Some requested) variants = inr infos.
Proof.
  intros Hincl Hpk.
  rewrite (get_column_infos_unfold _ _ _ (requested_columns_present _ _ Hincl)).
  apply mapM_total. intros n Hn.
  apply (reported_names_incl _ _ Hincl Hpk) in Hn.
  destruct (lookup_Some_of_In _ _ Hn) as (c & Hc).
  unfold column_info, getitem. rewrite Hc. cbn. eauto.
Qed.

(** C9, as the code has it. A schema or rows request that names a column
    the frame does not have fails with the 404 [HTTPException] and leaves
    the state as it was. When every requested name exists, on a well-formed
    frame, the column check passes: a schema request succeeds, and a rows
    request produces its column infos and then succeeds exactly when its
    row selection does, failing with the selection's own error otherwise;
    in every case the state is unchanged. *)
Theorem column_check_then_row_selection
    (st : State) (requested : list string) (variants : option (list string)) :
  (forall n, In n requested -> ~ In n (columns (frame st)) ->
     let e := HTTPException (VInt 404)
                (Some ("Requested columns " ++ py_str_list requested
                       ++ " do not exist in dataframe with id "
                       ++ df_id (frame st))%string) in
     schema (Some requested) variants st = (inl e, st) /\
     forall start end_ posidxs_ key_column keyidxs,
       rows start end_ posidxs_ key_column keyidxs (Some requested) variants st =
         (inl e, st))
  /\
  (incl requested (columns (frame st)) -> wf (frame st) ->
     (exists resp, schema (Some requested) variants st = (inr resp, st)) /\
     forall start end_ posidxs_ key_column keyidxs,
       exists infos df1,
         _get_column_infos (frame st) (Some requested) variants = inr infos /\
         getitem_columns (frame st) (map name infos) = inr df1 /\
         match select_rows df1 start end_ posidxs_ key_column keyidxs with
         | inl e =>
             rows start end_ posidxs_ key_column keyidxs (Some requested) variants st =
               (inl e, st)
         | inr _ =>
             exists resp,
               rows start end_ posidxs_ key_column keyidxs (Some requested) variants st =
                 (inr resp, st) /\ column_infos resp = infos
         end).
Proof.
  split.
  - intros n Hin Hout e.
    pose proof (requested_columns_absent _ _ _ Hin Hout) as Hreq.
    split; [|intros start end_ posidxs_ key_column keyidxs].
    + unfold schema, lift, get_frame, _get_column_infos. cbn [bind M_Monad].
      rewrite Hreq. reflexivity.
    + unfold rows, lift, get_frame, _get_column_infos. cbn [bind M_Monad].
      rewrite Hreq. reflexivity.
  - intros Hincl (_ & Hu & Hpk).
    destruct (get_column_infos_ok _ _ variants Hincl Hpk) as (infos & Hinfos).
    split; [|intros start end_ posidxs_ key_column keyidxs].
    + eexists. unfold schema, lift, get_frame. cbn [bind M_Monad].
      rewrite Hinfos. reflexivity.
    + destruct (rows_spec st start end_ posidxs_ key_column keyidxs (Some requested)
                  variants infos Hu Hinfos) as (df1 & Hg & _ & _ & Hsel).
      exists infos, df1. split; [assumption|]. split; [assumption|].
      destruct (select_rows df1 start end_ posidxs_ key_column keyidxs)
        as [e|[df2 p]]; [assumption|].
      destruct Hsel as (rs & _ & Hrows). eexists. split; [exact Hrows|reflexivity].
Qed.

Lemma wf_scores : wf scores.
Proof.
  split; [|split].
  - cbn. repeat constructor; cbn; intuition discriminate.
  - exact uniform_scores.
  - discriminate.
Qed.

Lemma column_check_then_row_selection_scenario :
  (In "nope" ["id"; "nope"] /\ ~ In "nope" (columns scores) /\
   schema (Some ["id"; "nope"]) None (fresh scores) =
     (inl (HTTPException (VInt 404)
             (Some "Requested columns ['id', 'nope'] do not exist in dataframe with id df0")),
      fresh scores))
  /\
  (incl ["score"] (columns scores) /\ wf scores /\
   exists resp, schema (Some ["score"]) None (fresh scores) = (inr resp, fresh scores)).
Proof.
  assert (H1 : In "nope" ["id"; "nope"]) by (cbn; auto).
  assert (H2 : ~ In "nope" (columns scores)) by (cbn; intuition discriminate).
  assert (H3 : incl ["score"] (columns scores)).
  { intros n [<-|[]]. cbn. auto. }
  split.
  - split; [exact H1|]. split; [exact H2|].
    exact (proj1 (proj1 (column_check_then_row_selection (fresh scores)
                           ["id"; "nope"] None) "nope" H1 H2)).
  - split; [exact H3|]. split; [exact wf_scores|].
    exact (proj1 (proj2 (column_check_then_row_selection (fresh scores)
                           ["score"] None) H3 wf_scores)).
Defined.

(** C9 as stated does not hold: with every requested name present, a rows
    request that carries no row selector still fails. *)
Lemma rows_with_present_columns_can_fail :
  ~ (forall (st : State) start end_ posidxs_ key_column keyidxs
            (requested : list string) variants,
       incl requested (columns (frame st)) ->
       exists resp,
         fst (rows start end_ posidxs_ key_column keyidxs (Some requested) variants st)
         = inr resp).
Proof.
  intros H.
  destruct (H (fresh scores) None None None None None ["id"] None) as (resp & Hr).
  - intros n [<-|[]]. cbn. auto.
  - discriminate Hr.
Qed.

Example rows_without_selector :
  rows None None None None None (Some ["id"]) None (fresh scores)
  = (inl (ValueError ""), fresh scores).
Proof. reflexivity. Qed.

(** ** Underscore columns and the primary key *)

Lemma reported_names_underscore (df : DataFrame) (requested : list string) (n : string) :
  In n (reported_names df requested) ->
  startswith_underscore n = true ->
  primary_key_name df = Some n.
Proof.
  unfold reported_names. intros Hin Hn.
  assert (Hkept : ~ In n (filter (fun c => negb (startswith_underscore c)) requested)).
  { intros Hf. apply filter_In in Hf. destruct Hf as [_ Hf]. now rewrite Hn in Hf. }
  destruct (primary_key_name df) as [pk|]; [|contradiction].
  destruct (existsb (String.eqb pk) _); [contradiction|].
  apply in_app_or in Hin. destruct Hin as [Hin|[<-|[]]]; [contradiction|reflexivity].
Qed.

Lemma returns_infos_inv (st : State) (requested variants : option (list string))
    (infos : list ColumnInfo) :
  returns_infos st requested variants infos ->
  map name infos =
  reported_names (frame st)
    (match requested with Some l => l | None => columns (frame st) end).
Proof.
  intros [(resp & st' & Hs & <-)|(start & end_ & pos & kc & keys & resp & st' & Hr & <-)].
  - unfold schema, lift, get_frame in Hs. cbn [bind M_Monad] in Hs.
    destruct (_get_column_infos (frame st) _ variants) as [e|infos'] eqn:Hi;
      [discriminate|].
    injection Hs as <- _. cbn [schema_columns].
    rewrite (get_column_infos_names _ _ _ _ Hi). now destruct requested.
  - unfold rows, lift, get_frame in Hr. cbn [bind M_Monad] in Hr.
    destruct (_get_column_infos (frame st) requested variants) as [e|infos'] eqn:Hi;
      [discriminate|].
    cbn [bind res_Monad] in Hr.
    destruct (getitem_columns (frame st) (map name infos')) as [e|df1];
      [discriminate|].
    cbn [bind res_Monad] in Hr.
    destruct (select_rows df1 start end_ pos kc keys) as [e|sel]; [discriminate|].
    cbn [bind res_Monad] in Hr.
    destruct (mapM _ _) as [e|rs]; [discriminate|].
    injection Hr as <- _. cbn [column_infos].
    apply (get_column_infos_names _ _ _ _ Hi).
Qed.

(** C10, as the code has it. The column infos a schema or rows request
    returns are, in order, the requested names (all the frame's names when
    none are requested) that do not start with an underscore, followed by
    the primary-key name when the frame has one that is not among them. So
    a returned name that starts with an underscore can only be the primary
    key, and the primary key is always returned. *)
Theorem returned_infos_underscore_and_primary_key
    (st : State) (requested variants : option (list string)) (infos : list ColumnInfo) :
  returns_infos st requested variants infos ->
  let asked := match requested with Some l => l | None => columns (frame st) end in
  let kept := filter (fun c => negb (startswith_underscore c)) asked in
  map name infos =
    match primary_key_name (frame st) with
    | Some pk => if existsb (String.eqb pk) kept then kept else kept ++ [pk]
    | None => kept
    end
  /\ (forall n, In n (map name infos) -> startswith_underscore n = true ->
        primary_key_name (frame st) = Some n)
  /\ (forall n, In n asked -> startswith_underscore n = true ->
        primary_key_name (frame st) <> Some n -> ~ In n (map name infos))
  /\ (forall pk, primary_key_name (frame st) = Some pk -> In pk (map name infos)).
Proof.
  intros Hret asked kept. apply returns_infos_inv in Hret. fold asked in Hret.
  split; [exact Hret|]. rewrite Hret. split; [|split].
  - intros n. apply reported_names_underscore.
  - intros n _ Hn Hpk Hin. apply Hpk. now apply (reported_names_underscore _ asked).
  - intros pk. apply reported_names_primary_key.
Qed.

Lemma returned_infos_underscore_and_primary_key_scenario :
  returns_infos (fresh hidden_key) (Some ["_id"; "x"]) None
    (map (fun n => {| name := n; type := "ScalarColumn";
                      cell_component := "ScalarFormatter";
                      cell_props := []; cell_data_prop := "data" |}) ["x"; "_id"]) /\
  map name
    (map (fun n => {| name := n; type := "ScalarColumn";
                      cell_component := "ScalarFormatter";
                      cell_props := []; cell_data_prop := "data" |}) ["x"; "_id"])
  = ["x"; "_id"].
Proof.
  assert (Hret : returns_infos (fresh hidden_key) (Some ["_id"; "x"]) None
            (map (fun n => {| name := n; type := "ScalarColumn";
                              cell_component := "ScalarFormatter";
                              cell_props := []; cell_data_prop := "data" |})
                 ["x"; "_id"])).
  { left. eexists. eexists. split; reflexivity. }
  split; [exact Hret|].
  exact (proj1 (returned_infos_underscore_and_primary_key (fresh hidden_key)
                  (Some ["_id"; "x"]) None _ Hret)).
Defined.

(** C10 as stated does not hold: a primary key whose name starts with an
    underscore is filtered out and then appended again, so it is among the
    returned column infos. *)
Lemma underscore_primary_key_is_returned :
  ~ (forall (st : State) (requested variants : option (list string))
            (infos : list ColumnInfo),
       returns_infos st requested variants infos ->
       Forall (fun info => startswith_underscore (name info) = false) infos).
Proof.
  intros H.
  specialize (H (fresh hidden_key) None None
                (map (fun n => {| name := n; type := "ScalarColumn";
                                  cell_component := "ScalarFormatter";
                                  cell_props := []; cell_data_prop := "data" |})
                     ["x"; "_id"])).
  assert (Hall : Forall (fun info => startswith_underscore (name info) = false)
            (map (fun n => {| name := n; type := "ScalarColumn";
                              cell_component := "ScalarFormatter";
                              cell_props := []; cell_data_prop := "data" |})
                 ["x"; "_id"])).
  { apply H. left. eexists. eexists. split; reflexivity. }
  inversion Hall as [|? ? _ Hrest]. inversion Hrest as [|? ? Hid _].
  discriminate Hid.
Qed.

Example schema_hidden_key_names :
  match fst (schema None None (fresh hidden_key)) with
  | inr resp => map name (schema_columns resp) = ["x"; "_id"]
  | inl _ => False
  end.
Proof. reflexivity. Qed.

(* ================================================================= *)
(** * Further properties of the handlers *)

(** ** More on [edit] *)

Lemma assign_mask_idem (mask : list bool) (v : value) (l : list value) :
  assign_mask mask v (assign_mask mask v l) = assign_mask mask v l.
Proof.
  revert l. induction mask as [|b mask IH]; intros [|x l]; cbn; try reflexivity.
  rewrite IH. now destruct b.
Qed.

Lemma store_store (n : string) (c1 c2 : Column) (l : list (string * Column)) :
  store n c2 (store n c1 l) = store n c2 l.
Proof.
  induction l as [|[k c0] l IH]; cbn; [reflexivity|].
  destruct (String.eqb k n) eqn:E; cbn; rewrite E; [reflexivity|].
  now rewrite IH.
Qed.

Lemma store_In (n m : string) (c x : Column) (l : list (string * Column)) :
  In (m, x) (store n c l) -> In (m, x) l \/ x = c.
Proof.
  induction l as [|[k c0] l IH]; cbn; [tauto|].
  destruct (String.eqb k n); cbn.
  - intros [[= <- <-]|Hin]; auto.
  - intros [Heq|Hin]; [auto|]. destruct (IH Hin); auto.
Qed.

Lemma len_store (df : DataFrame) (n : string) (c c0 : Column) :
  lookup n (items df) = Some c0 ->
  List.length (data c) = List.length (data c0) ->
  len (with_items df (store n c (items df))) = len df.
Proof.
  unfold len, with_items. cbn [items].
  destruct (items df) as [|[k c1] rest]; cbn; [reflexivity|].
  destruct (String.eqb k n); cbn; [|reflexivity].
  now intros [= ->].
Qed.

(** What a successful [edit] leaves in the state. *)
Lemma edit_inr (st st' : State) (v : value) (c ic : string) (k : value) :
  edit v c k ic st = (inr tt, st') ->
  exists idcol col,
    lookup ic (items (frame st)) = Some idcol /\
    lookup c (items (frame st)) = Some col /\
    (mask_sum (column_eq idcol k) =? 0) = false /\
    st' = {| frame := with_items (frame st)
                        (store c (setitem_mask col (column_eq idcol k) v)
                               (items (frame st)));
             modification_queue :=
               modification_queue st ++
               [{| id := inode_id (frame st); scope := [c] |}] |}.
Proof.
  unfold edit, getitem, raise, throw, lift. cbn.
  destruct (lookup ic (items (frame st))) as [idcol|]; cbn; [|discriminate].
  destruct (mask_sum (column_eq idcol k) =? 0) eqn:E; cbn; [discriminate|].
  destruct (lookup c (items (frame st))) as [col|]; cbn; [|discriminate].
  intros [= <-]. exists idcol, col. auto.
Qed.

(** X1. The checks of [edit], in their order, each before the write.
    - A missing identifier column raises [KeyError] for it, whatever the
      other arguments are.
    - With the identifier column there and no row matching, the [raise] of
      line 167 is reached, also when the target column is missing too, and
      the [ValueError] of the status lookup in the exception's constructor
      escapes.
    - With a row matching and the target column missing, [KeyError] is
      raised for the target column.
    In each of the three cases the frame and the queue are what they
    were. *)
Theorem edit_errors_in_order
    (st : State) (v : value) (c ic : string) (k : value) :
  (lookup ic (items (frame st)) = None ->
     edit v c k ic st = (inl (KeyError (VStr ic)), st))
  /\
  (forall idcol,
     lookup ic (items (frame st)) = Some idcol ->
     Forall (fun x => value_eqb x k = false) (data idcol) ->
     edit v c k ic st =
       (inl (ValueError
               (py_repr ("Row with id " ++ py_str k ++ " not found in column " ++ ic)
                ++ " is not a valid HTTPStatus")%string),
        st))
  /\
  (forall idcol,
     lookup ic (items (frame st)) = Some idcol ->
     Exists (fun x => value_eqb x k = true) (data idcol) ->
     lookup c (items (frame st)) = None ->
     edit v c k ic st = (inl (KeyError (VStr c)), st)).
Proof.
  split; [|split].
  - intros Hic. unfold edit, getitem. cbn. now rewrite Hic.
  - intros idcol. apply edit_no_match.
  - intros idcol Hic Hex Hc. unfold edit, getitem. cbn. rewrite Hic. cbn.
    rewrite (mask_sum_pos _ _ Hex). now rewrite Hc.
Qed.

Lemma edit_errors_in_order_scenario :
  edit (VInt 99) "score" (VInt 2) "key" (fresh scores) =
    (inl (KeyError (VStr "key")), fresh scores) /\
  edit (VInt 99) "nope" (VInt 7) "id" (fresh scores) =
    (inl (ValueError "'Row with id 7 not found in column id' is not a valid HTTPStatus"),
     fresh scores) /\
  edit (VInt 99) "nope" (VInt 2) "id" (fresh scores) =
    (inl (KeyError (VStr "nope")), fresh scores).
Proof.
  split; [|split].
  - exact (proj1 (edit_errors_in_order (fresh scores) (VInt 99) "score" "key" (VInt 2))
             eq_refl).
  - apply (proj1 (proj2 (edit_errors_in_order (fresh scores) (VInt 99) "nope" "id"
                           (VInt 7)))
             (int_column [1; 2; 3]%Z) eq_refl).
    repeat constructor.
  - apply (proj2 (proj2 (edit_errors_in_order (fresh scores) (VInt 99) "nope" "id"
                           (VInt 2)))
             (int_column [1; 2; 3]%Z) eq_refl); [|reflexivity].
    apply Exists_cons_tl, Exists_cons_hd. reflexivity.
Defined.

(** X2. [edit] keeps the data invariant: after a successful edit the frame
    is well formed if it was, with the same column names in the same order,
    the same number of rows, the same primary key and the same identity. *)
Theorem edit_preserves_wf
    (st st' : State) (v : value) (c ic : string) (k : value) :
  wf (frame st) ->
  edit v c k ic st = (inr tt, st') ->
  wf (frame st') /\
  columns (frame st') = columns (frame st) /\
  len (frame st') = len (frame st) /\
  primary_key_name (frame st') = primary_key_name (frame st) /\
  df_id (frame st') = df_id (frame st) /\
  inode_id (frame st') = inode_id (frame st).
Proof.
  intros (Hnd & Hu & Hpk) Hedit.
  destruct (edit_inr _ _ _ _ _ _ Hedit) as (idcol & col & Hic & Hc & _ & ->).
  cbn [frame].
  set (col' := setitem_mask col (column_eq idcol k) v).
  assert (Hlen' : List.length (data col') = List.length (data col)).
  { apply length_assign_mask. }
  assert (Hcols : columns (with_items (frame st) (store c col' (items (frame st))))
                  = columns (frame st)).
  { unfold columns. cbn. apply map_fst_store. }
  assert (Hl : len (with_items (frame st) (store c col' (items (frame st))))
               = len (frame st)).
  { now apply (len_store _ _ _ col). }
  repeat split; try assumption; try reflexivity.
  - now rewrite Hcols.
  - intros n x Hin. rewrite Hl. cbn [items with_items] in Hin.
    destruct (store_In _ _ _ _ _ Hin) as [Hin'| ->].
    + now apply (Hu n x).
    + rewrite Hlen'. apply (Hu c col). now apply lookup_In.
  - intros pk Hp. rewrite Hcols. now apply Hpk.
Qed.

Lemma edit_preserves_wf_scenario :
  wf scores /\
  wf (frame (snd (edit (VInt 99) "score" (VInt 2) "id" (fresh scores)))).
Proof.
  split; [exact wf_scores|].
  exact (proj1 (edit_preserves_wf (fresh scores) _ (VInt 99) "score" "id" (VInt 2)
                  wf_scores eq_refl)).
Defined.

(** X3. Repeating an edit. When the target column is not the identifier
    column, sending the same edit again succeeds, leaves the frame exactly
    as the first edit left it, and enqueues a second modification. *)
Theorem edit_twice_same_frame
    (st st1 : State) (v : value) (c ic : string) (k : value) :
  c <> ic ->
  edit v c k ic st = (inr tt, st1) ->
  edit v c k ic st1 =
    (inr tt,
     {| frame := frame st1;
        modification_queue :=
          modification_queue st1 ++
          [{| id := inode_id (frame st); scope := [c] |}] |}).
Proof.
  intros Hne Hedit.
  destruct (edit_inr _ _ _ _ _ _ Hedit) as (idcol & col & Hic & Hc & Hsum & ->).
  unfold edit, getitem, raise, throw, lift. cbn.
  rewrite (lookup_store_other c ic) by congruence. rewrite Hic. cbn.
  rewrite Hsum. cbn.
  rewrite (lookup_store_same _ _ _ _ Hc). cbn.
  rewrite store_store. unfold with_items, setitem_mask, map_data. cbn.
  now rewrite assign_mask_idem.
Qed.

Lemma edit_twice_same_frame_scenario :
  "score" <> "id" /\
  edit (VInt 99) "score" (VInt 2) "id"
       (snd (edit (VInt 99) "score" (VInt 2) "id" (fresh scores))) =
    (inr tt,
     {| frame := frame (snd (edit (VInt 99) "score" (VInt 2) "id" (fresh scores)));
        modification_queue :=
          [{| id := "node0"; scope := ["score"] |};
           {| id := "node0"; scope := ["score"] |}] |}).
Proof.
  assert (Hne : "score" <> "id") by discriminate.
  split; [exact Hne|].
  exact (edit_twice_same_frame (fresh scores) _ (VInt 99) "score" "id" (VInt 2)
           Hne eq_refl).
Defined.

Lemma mask_after_rekey (k v : value) (l : list value) :
  value_eqb v k = false ->
  Forall (fun x => value_eqb x k = false)
    (assign_mask (map (fun x => value_eqb x k) l) v l).
Proof.
  intros Hvk. induction l as [|x l IH]; cbn; [constructor|].
  constructor; [|assumption].
  destruct (value_eqb x k) eqn:E; assumption.
Qed.

(** X4. Editing the identifier column itself. An edit whose target column
    is the identifier column and whose new value differs from the key
    moves every matching row to the new key, so the same request sent
    again finds no row: it reaches the [raise] of line 167, fails there
    with the [ValueError] of the status lookup, and changes nothing. *)
Theorem edit_identifier_column_moves_key
    (st st1 : State) (v : value) (ic : string) (k : value) :
  value_eqb v k = false ->
  edit v ic k ic st = (inr tt, st1) ->
  (exists idcol',
     lookup ic (items (frame st1)) = Some idcol' /\
     Forall (fun x => value_eqb x k = false) (data idcol')) /\
  edit v ic k ic st1 =
    (inl (ValueError
            (py_repr ("Row with id " ++ py_str k ++ " not found in column " ++ ic)
             ++ " is not a valid HTTPStatus")%string),
     st1).
Proof.
  intros Hvk Hedit.
  destruct (edit_inr _ _ _ _ _ _ Hedit) as (idcol & col & Hic & Hc & Hsum & ->).
  rewrite Hic in Hc. injection Hc as <-.
  assert (Hmoved : exists idcol',
            lookup ic (items (with_items (frame st)
                                (store ic (setitem_mask idcol (column_eq idcol k) v)
                                       (items (frame st))))) = Some idcol' /\
            Forall (fun x => value_eqb x k = false) (data idcol')).
  { eexists. split.
    - cbn [items with_items]. apply (lookup_store_same _ _ _ _ Hic).
    - cbn. now apply mask_after_rekey. }
  split; [exact Hmoved|].
  destruct Hmoved as (idcol' & Hic' & Hnone).
  now apply (edit_no_match _ v ic ic k idcol').
Qed.

Lemma edit_identifier_column_moves_key_scenario :
  value_eqb (VInt 5) (VInt 2) = false /\
  fst (edit (VInt 5) "id" (VInt 2) "id"
         (snd (edit (VInt 5) "id" (VInt 2) "id" (fresh scores)))) =
    inl (ValueError "'Row with id 2 not found in column id' is not a valid HTTPStatus").
Proof.
  split; [reflexivity|].
  exact (f_equal fst
           (proj2 (edit_identifier_column_moves_key (fresh scores) _ (VInt 5) "id"
                     (VInt 2) eq_refl eq_refl))).
Defined.

(** ** More on [remove_row_by_index] *)

Lemma map_items_fixed (f : list value -> list value) (df : DataFrame) :
  (forall n c, In (n, c) (items df) -> f (data c) = data c) ->
  map_items f df = df.
Proof.
  intros Hfix. unfold map_items. destruct df as [i ino its pk]. cbn in *.
  f_equal. induction its as [|[n c] its IH]; cbn; [reflexivity|].
  rewrite IH by (intros; eapply Hfix; right; eassumption).
  f_equal. unfold map_data. rewrite (Hfix n c) by now left.
  now destruct c.
Qed.

Lemma arange_ne_all_true (n : nat) (z : Z) :
  (z < 0 \/ Z.of_nat n <= z)%Z -> arange_ne n z = repeat true n.
Proof.
  intros Hz. unfold arange_ne.
  enough (Hgen : forall s, (z < Z.of_nat s \/ Z.of_nat (s + n) <= z)%Z ->
            map (fun k => negb (Z.of_nat k =? z)%Z) (seq s n) = repeat true n).
  { apply Hgen. cbn. lia. }
  induction n as [|n IH]; intros s Hs; [reflexivity|].
  cbn [seq map repeat]. rewrite IH by lia. f_equal.
  destruct (Z.eqb_spec (Z.of_nat s) z); [lia|reflexivity].
Qed.

(** X5. A position that is not a row. For a negative [row_index] (so also
    [-1], which does not mean the last row here) or one at or beyond the
    number of rows, the mask [np.arange(len(df)) != row_index] of line 147
    holds at every position, and the frame it selects is the whole frame:
    no row is left out. *)
Theorem remove_row_by_index_no_such_row (df : DataFrame) (row_index : Z) :
  uniform df ->
  (row_index < 0 \/ Z.of_nat (len df) <= row_index)%Z ->
  arange_ne (len df) row_index = repeat true (len df) /\
  getitem_mask df (arange_ne (len df) row_index) = df.
Proof.
  intros Hu Hr. split.
  - now apply arange_ne_all_true.
  - apply map_items_fixed. intros n c Hin.
    now apply (remove_row_by_index_out_of_range
                 {| frame := df; modification_queue := [] |} row_index n c).
Qed.

Lemma remove_row_by_index_no_such_row_scenario :
  uniform scores /\
  (-1 < 0 \/ Z.of_nat (len scores) <= -1)%Z /\
  arange_ne (len scores) (-1) = [true; true; true] /\
  getitem_mask scores (arange_ne (len scores) (-1)) = scores.
Proof.
  assert (Hr : (-1 < 0 \/ Z.of_nat (len scores) <= -1)%Z) by (left; lia).
  split; [exact uniform_scores|]. split; [exact Hr|].
  exact (remove_row_by_index_no_such_row scores (-1) uniform_scores Hr).
Defined.

(** ** More on [_get_column_infos] and [schema] *)

Lemma filter_idem {A} (p : A -> bool) (l : list A) :
  filter p (filter p l) = filter p l.
Proof.
  induction l as [|x l IH]; cbn; [reflexivity|].
  destruct (p x) eqn:E; cbn; [rewrite E|]; now rewrite ?IH.
Qed.

Lemma filter_fixed {A} (p : A -> bool) (l : list A) :
  (forall x, In x l -> p x = true) -> filter p l = l.
Proof.
  intros Hall. apply forallb_filter_id, forallb_forall, Hall.
Qed.

Lemma reported_names_idem (df : DataFrame) (l : list string) :
  reported_names df (reported_names df l) = reported_names df l.
Proof.
  unfold reported_names.
  set (p := fun column => negb (startswith_underscore column)).
  set (kept := filter p l).
  assert (Hk : filter p kept = kept) by apply filter_idem.
  destruct (primary_key_name df) as [pk|]; [|assumption].
  destruct (existsb (String.eqb pk) kept) eqn:E.
  - now rewrite Hk, E.
  - rewrite filter_app, Hk. cbn [filter].
    destruct (p pk); [|now rewrite app_nil_r, E].
    replace (existsb (String.eqb pk) (kept ++ [pk])) with true; [reflexivity|].
    symmetry. apply existsb_eqb_In, in_or_app. right. now left.
Qed.

(** X6. The column list of a response can be sent back. If a request for
    column infos succeeds, a second request that names exactly the
    returned columns, in the returned order, succeeds too and returns the
    same infos: the 404 check passes and neither the underscore filter nor
    the primary-key rule changes the list again. *)
Theorem get_column_infos_round_trip
    (df : DataFrame) (requested variants : option (list string))
    (infos : list ColumnInfo) :
  _get_column_infos df requested variants = inr infos ->
  _get_column_infos df (Some (map name infos)) variants = inr infos.
Proof.
  intros Hinfos.
  pose proof (get_column_infos_inv _ _ _ _ Hinfos) as Hm.
  pose proof (column_info_lookup _ _ _ _ Hm) as Hlook.
  assert (Hincl : incl (map name infos) (columns df)).
  { intros n Hn. destruct (Hlook n Hn) as (c & Hc).
    apply lookup_In in Hc. unfold columns.
    change n with (fst (n, c)). now apply in_map. }
  rewrite (get_column_infos_unfold _ _ _ (requested_columns_present _ _ Hincl)).
  rewrite (get_column_infos_names _ _ _ _ Hinfos) at 1.
  rewrite reported_names_idem.
  now rewrite <- (get_column_infos_names _ _ _ _ Hinfos).
Qed.

Lemma get_column_infos_round_trip_scenario :
  _get_column_infos hidden_key (Some ["_id"; "x"]) None =
    inr (map (fun n => {| name := n; type := "ScalarColumn";
                          cell_component := "ScalarFormatter";
                          cell_props := []; cell_data_prop := "data" |}) ["x"; "_id"]) /\
  _get_column_infos hidden_key (Some ["x"; "_id"]) None =
    inr (map (fun n => {| name := n; type := "ScalarColumn";
                          cell_component := "ScalarFormatter";
                          cell_props := []; cell_data_prop := "data" |}) ["x"; "_id"]).
Proof.
  assert (H : _get_column_infos hidden_key (Some ["_id"; "x"]) None =
              inr (map (fun n => {| name := n; type := "ScalarColumn";
                                    cell_component := "ScalarFormatter";
                                    cell_props := []; cell_data_prop := "data" |})
                       ["x"; "_id"])) by reflexivity.
  split; [exact H|].
  exact (get_column_infos_round_trip hidden_key _ None _ H).
Defined.

(** X7. No column is reported twice. When the names asked for (the
    request's list, or the frame's columns when there is none) have no
    duplicate, neither have the returned column infos: the primary key is
    appended only when it is not there already. *)
Theorem get_column_infos_no_duplicates
    (df : DataFrame) (requested variants : option (list string))
    (infos : list ColumnInfo) :
  _get_column_infos df requested variants = inr infos ->
  NoDup (match requested with Some l => l | None => columns df end) ->
  NoDup (map name infos).
Proof.
  intros Hinfos Hnd. rewrite (get_column_infos_names _ _ _ _ Hinfos).
  unfold reported_names.
  set (kept := filter _ _).
  assert (Hk : NoDup kept) by now apply NoDup_filter.
  destruct (primary_key_name df) as [pk|]; [|assumption].
  destruct (existsb (String.eqb pk) kept) eqn:E; [assumption|].
  apply NoDup_app; [assumption|repeat constructor; auto|].
  intros x Hx [<-|[]]. apply existsb_eqb_In in Hx. congruence.
Qed.

Lemma get_column_infos_no_duplicates_scenario :
  _get_column_infos keyed_scores (Some ["score"]) None =
    inr (map (fun n => {| name := n; type := "ScalarColumn";
                          cell_component := "ScalarFormatter";
                          cell_props := []; cell_data_prop := "data" |})
             ["score"; "id"]) /\
  NoDup ["score"] /\
  NoDup ["score"; "id"].
Proof.
  assert (H : _get_column_infos keyed_scores (Some ["score"]) None =
              inr (map (fun n => {| name := n; type := "ScalarColumn";
                                    cell_component := "ScalarFormatter";
                                    cell_props := []; cell_data_prop := "data" |})
                       ["score"; "id"])) by reflexivity.
  assert (Hnd : NoDup ["score"]) by (repeat constructor; auto).
  split; [exact H|]. split; [exact Hnd|].
  exact (get_column_infos_no_duplicates keyed_scores (Some ["score"]) None _ H Hnd).
Defined.

Lemma column_info_describes (df : DataFrame) (variants : option (list string))
    (names : list string) (infos : list ColumnInfo) :
  mapM (column_info df variants) names = inr infos ->
  Forall (fun info =>
            exists c, lookup (name info) (items df) = Some c /\
                      describes variants (name info) c info) infos.
Proof.
  intros Hm. apply mapM_inr in Hm.
  induction Hm as [|n info l l' Hn F IH]; constructor; [|assumption].
  unfold column_info, getitem in Hn.
  destruct (lookup n (items df)) as [c|] eqn:Hc; [|discriminate].
  cbn in Hn. injection Hn as <-. cbn. exists c. split; [assumption|].
  repeat split.
Qed.

(** X8. What a schema response says. Whenever [schema] returns a response,
    the state is untouched, the response carries the frame's id, its number
    of rows and its primary-key name, and every column info in it
    describes the frame's column of that name: its type name and its
    formatter's component, props (for the requested variants) and data
    prop. *)
Theorem schema_describes_columns
    (st st' : State) (requested variants : option (list string))
    (resp : SchemaResponse) :
  schema requested variants st = (inr resp, st') ->
  st' = st /\
  schema_id resp = df_id (frame st) /\
  schema_nrows resp = len (frame st) /\
  schema_primary_key resp = primary_key_name (frame st) /\
  Forall (fun info =>
            exists c, lookup (name info) (items (frame st)) = Some c /\
                      describes variants (name info) c info)
         (schema_columns resp).
Proof.
  unfold schema, lift, get_frame. cbn [bind M_Monad].
  destruct (_get_column_infos (frame st) _ variants) as [e|infos] eqn:Hi;
    [discriminate|].
  intros [= <- <-]. cbn. repeat split.
  apply (column_info_describes (frame st) variants (map name infos)).
  now apply (get_column_infos_inv _ _ _ _ Hi).
Qed.

Lemma schema_describes_columns_scenario :
  schema (Some ["score"]) None (fresh scores) =
    (inr {| schema_id := "df0";
            schema_columns :=
              [{| name := "score"; type := "ScalarColumn";
                  cell_component := "ScalarFormatter";
                  cell_props := []; cell_data_prop := "data" |}];
            schema_nrows := 3;
            schema_primary_key := None |}, fresh scores) /\
  fresh scores = fresh scores.
Proof.
  assert (H : schema (Some ["score"]) None (fresh scores) =
    (inr {| schema_id := "df0";
            schema_columns :=
              [{| name := "score"; type := "ScalarColumn";
                  cell_component := "ScalarFormatter";
                  cell_props := []; cell_data_prop := "data" |}];
            schema_nrows := 3;
            schema_primary_key := None |}, fresh scores)) by reflexivity.
  split; [exact H|].
  exact (proj1 (schema_describes_columns _ _ _ _ _ H)).
Defined.

(** X9. A schema request without a column list cannot fail on a
    well-formed frame: it never meets the 404 check, and it reports the
    frame's columns in frame order, those with a leading underscore left
    out, the primary key last when it was left out. *)
Theorem schema_without_list_succeeds (st : State) (variants : option (list string)) :
  wf (frame st) ->
  exists resp,
    schema None variants st = (inr resp, st) /\
    map name (schema_columns resp) =
      reported_names (frame st) (columns (frame st)) /\
    schema_nrows resp = len (frame st).
Proof.
  intros (_ & _ & Hpk).
  destruct (get_column_infos_ok (frame st) (columns (frame st)) variants
              (incl_refl _) Hpk) as (infos & Hinfos).
  eexists. unfold schema, lift, get_frame. cbn [bind M_Monad].
  rewrite Hinfos. split; [reflexivity|]. cbn. split; [|reflexivity].
  apply (get_column_infos_names _ _ _ _ Hinfos).
Qed.

Lemma wf_hidden_key : wf hidden_key.
Proof.
  split; [|split].
  - cbn. repeat constructor; cbn; intuition discriminate.
  - intros n c [[= <- <-]|[[= <- <-]|[]]]; reflexivity.
  - intros pk [= <-]. cbn. auto.
Qed.

Lemma schema_without_list_succeeds_scenario :
  wf hidden_key /\
  exists resp,
    schema None None (fresh hidden_key) = (inr resp, fresh hidden_key) /\
    map name (schema_columns resp) = ["x"; "_id"] /\
    schema_nrows resp = 2.
Proof.
  split; [exact wf_hidden_key|].
  exact (schema_without_list_succeeds (fresh hidden_key) None wf_hidden_key).
Defined.

(** ** More on [rows] *)

(** X10. The shape of a rows response. Whenever [rows] returns a response,
    the state is untouched, [full_length] is the number of rows of the
    whole frame whatever was selected, every returned row has exactly one
    cell per returned column info, and every column info describes the
    frame's column of that name. *)
Theorem rows_response_shape
    (st st' : State) (start end_ : option Z) (posidxs_ : option (list Z))
    (key_column : option string) (keyidxs : option (list value))
    (requested variants : option (list string)) (resp : RowsResponse) :
  rows start end_ posidxs_ key_column keyidxs requested variants st = (inr resp, st') ->
  st' = st /\
  full_length resp = len (frame st) /\
  Forall (fun r => List.length r = List.length (column_infos resp)) (rows_ resp) /\
  Forall (fun info =>
            exists c, lookup (name info) (items (frame st)) = Some c /\
                      describes variants (name info) c info)
         (column_infos resp).
Proof.
  unfold rows, lift, get_frame. cbn [bind M_Monad].
  destruct (_get_column_infos (frame st) requested variants) as [e|infos] eqn:Hi;
    [discriminate|].
  cbn [bind res_Monad].
  destruct (getitem_columns (frame st) (map name infos)) as [e|df1];
    [discriminate|].
  cbn [bind res_Monad].
  destruct (select_rows df1 start end_ posidxs_ key_column keyidxs) as [e|sel];
    [discriminate|].
  cbn [bind res_Monad].
  destruct (mapM _ (seq 0 (len (fst sel)))) as [e|rs] eqn:Hrows; [discriminate|].
  intros [= <- <-]. cbn. repeat split.
  - apply mapM_inr in Hrows. clear - Hrows.
    induction Hrows as [|i r l l' Hr F IH]; constructor; [|assumption].
    now apply mapM_length in Hr.
  - apply (column_info_describes (frame st) variants (map name infos)).
    now apply (get_column_infos_inv _ _ _ _ Hi).
Qed.

Lemma rows_response_shape_scenario :
  (exists resp,
     rows None None (Some [2; 0]%Z) None None None None (fresh scores) =
       (inr resp, fresh scores) /\
     full_length resp = 3 /\
     Forall (fun r => List.length r = List.length (column_infos resp)) (rows_ resp)).
Proof.
  eexists. split; [reflexivity|].
  pose proof (rows_response_shape (fresh scores) _ None None (Some [2; 0]%Z) None None
                None None _ eq_refl) as (_ & Hfull & Hrows & _).
  split; [exact Hfull|exact Hrows].
Defined.

Lemma norm_index_ok (n : nat) (p : list Z) :
  Forall (fun z => (- Z.of_nat n <= z < Z.of_nat n)%Z) p ->
  mapM (norm_index n) p = inr (map (normalized n) p) /\
  Forall (fun i => i < n) (map (normalized n) p).
Proof.
  induction 1 as [|z p Hz Hp [IHm IHb]]; [split; [reflexivity|constructor]|].
  cbn [mapM map]. rewrite IHm.
  unfold norm_index, normalized.
  destruct (Z.ltb_spec z 0) as [Hneg|Hpos].
  - destruct (Z.leb_spec 0 z); [lia|]. cbn [andb].
    destruct (Z.leb_spec (- Z.of_nat n) z); [|lia]. cbn.
    split; [reflexivity|]. constructor; [lia|assumption].
  - destruct (Z.leb_spec 0 z); [|lia].
    destruct (Z.ltb_spec z (Z.of_nat n)); [|lia]. cbn.
    split; [reflexivity|]. constructor; [lia|assumption].
Qed.

(** X11. Rows by position. When the column infos are produced and are not
    empty, and every requested position [z] has [0 <= z < len(df)], a
    request with [posidxs] succeeds whatever [start], [end], [key_column]
    and [keyidxs] it also carries: the position list takes precedence. The
    response repeats the position list and has one row per requested
    position, in request order and with repetitions; the row for position
    [z] has one cell per column info, holding the value that the column of
    the info's name has at row [z], encoded by that column's formatter. *)
Theorem rows_by_positions
    (st : State) (start end_ : option Z) (p : list Z)
    (key_column : option string) (keyidxs : option (list value))
    (requested variants : option (list string)) (infos : list ColumnInfo) :
  uniform (frame st) ->
  _get_column_infos (frame st) requested variants = inr infos ->
  infos <> [] ->
  Forall (fun z => (0 <= z < Z.of_nat (len (frame st)))%Z) p ->
  exists resp,
    rows start end_ (Some p) key_column keyidxs requested variants st = (inr resp, st) /\
    posidxs resp = Some p /\
    column_infos resp = infos /\
    List.length (rows_ resp) = List.length p /\
    shows_rows (frame st) infos variants (map Z.to_nat p) (rows_ resp).
Proof.
  intros Hu Hinfos Hne Hp.
  destruct (rows_spec st start end_ (Some p) key_column keyidxs requested variants
              infos Hu Hinfos) as (df1 & _ & Hproj & Hu1 & Hsel).
  pose proof (projected_len _ _ _ Hu Hproj Hne) as Hlen.
  assert (Hp' : Forall (fun z => (- Z.of_nat (len (frame st)) <= z
                                  < Z.of_nat (len (frame st)))%Z) p).
  { eapply Forall_impl; [|exact Hp]. cbn. intros z Hz. lia. }
  assert (Hnorm : map (normalized (len (frame st))) p = map Z.to_nat p).
  { apply map_ext_in. intros z Hz. rewrite Forall_forall in Hp.
    specialize (Hp z Hz). unfold normalized.
    destruct (Z.ltb_spec z 0); [lia|reflexivity]. }
  destruct (norm_index_ok (len (frame st)) p Hp') as [Hm Hb].
  rewrite Hnorm in Hm, Hb.
  cbn [select_rows] in Hsel. unfold getitem_posidxs in Hsel.
  rewrite Hlen, Hm in Hsel. cbn [bind ret res_Monad] in Hsel.
  destruct Hsel as (rs & Hrs & Hrows).
  assert (Hb1 : Forall (fun i => i < len df1) (map Z.to_nat p))
    by now rewrite Hlen.
  pose proof (rows_of_positions _ _ _ _ _ _ _ Hinfos Hproj Hu1 Hb1 Hrs) as Henc.
  eexists. split; [exact Hrows|]. cbn [posidxs column_infos rows_].
  split; [reflexivity|]. split; [reflexivity|]. split.
  - apply mapM_length in Henc. now rewrite Henc, length_map.
  - now apply encode_rows_show.
Qed.

Lemma rows_by_positions_scenario :
  uniform scores /\
  _get_column_infos scores None None = inr scores_infos /\
  scores_infos <> [] /\
  Forall (fun z => (0 <= z < Z.of_nat (len scores))%Z) [2; 0; 2]%Z /\
  exists resp,
    rows (Some 1%Z) None (Some [2; 0; 2]%Z) None None None None (fresh scores) =
      (inr resp, fresh scores) /\
    posidxs resp = Some [2; 0; 2]%Z /\
    column_infos resp = scores_infos /\
    List.length (rows_ resp) = 3 /\
    shows_rows scores scores_infos None [2; 0; 2] (rows_ resp).
Proof.
  assert (Hi : _get_column_infos scores None None = inr scores_infos) by reflexivity.
  assert (Hne : scores_infos <> []) by discriminate.
  assert (Hp : Forall (fun z => (0 <= z < Z.of_nat (len scores))%Z) [2; 0; 2]%Z).
  { repeat constructor; cbn; lia. }
  split; [exact uniform_scores|]. split; [exact Hi|]. split; [exact Hne|].
  split; [exact Hp|].
  exact (rows_by_positions (fresh scores) (Some 1%Z) None [2; 0; 2]%Z None None
           None None scores_infos uniform_scores Hi Hne Hp).
Defined.

Lemma py_range_positions (s stop : Z) :
  (0 <= s)%Z ->
  map Z.to_nat (py_range s stop) = seq (Z.to_nat s) (Z.to_nat (stop - s)).
Proof.
  intros Hs. unfold py_range. rewrite map_map.
  generalize (Z.to_nat (stop - s)) as n. intros n.
  enough (Hgen : forall a,
            map (fun k => Z.to_nat (s + Z.of_nat k)) (seq a n) = seq (Z.to_nat s + a) n).
  { rewrite Hgen. f_equal. lia. }
  induction n as [|n IH]; intros a; [reflexivity|].
  cbn [seq map]. rewrite IH. f_equal; [lia|]. f_equal. lia.
Qed.

Lemma length_py_range (s stop : Z) :
  List.length (py_range s stop) = Z.to_nat (stop - s).
Proof.
  unfold py_range. now rewrite length_map, length_seq.
Qed.

(** X12. Rows by range. For a [start] that is not negative and an [end]
    that is absent or not negative, a request with [start] and without
    [posidxs] succeeds on every frame whose column infos are produced and
    not empty: [end] is cut down to the number of rows (and is that number
    when absent), so a range that reaches beyond the frame is no error and
    a [start] beyond it gives no rows; the response reports the positions
    [start, ..., stop - 1] and has one row per reported position, in
    order; the row for a position has one cell per column info, holding
    the value that the column of the info's name has at that row, encoded
    by that column's formatter. *)
Theorem rows_by_range
    (st : State) (s : Z) (end_ : option Z)
    (key_column : option string) (keyidxs : option (list value))
    (requested variants : option (list string)) (infos : list ColumnInfo) :
  uniform (frame st) ->
  _get_column_infos (frame st) requested variants = inr infos ->
  infos <> [] ->
  (0 <= s)%Z ->
  match end_ with Some e => (0 <= e)%Z | None => True end ->
  let stop := match end_ with
              | Some e => Z.min e (Z.of_nat (len (frame st)))
              | None => Z.of_nat (len (frame st))
              end in
  exists resp,
    rows (Some s) end_ None key_column keyidxs requested variants st = (inr resp, st) /\
    posidxs resp = Some (py_range s stop) /\
    List.length (rows_ resp) = Z.to_nat (stop - s) /\
    shows_rows (frame st) infos variants (map Z.to_nat (py_range s stop)) (rows_ resp).
Proof.
  intros Hu Hinfos Hne Hs He stop.
  destruct (rows_spec st (Some s) end_ None key_column keyidxs requested variants
              infos Hu Hinfos) as (df1 & _ & Hproj & Hu1 & Hsel).
  pose proof (projected_len _ _ _ Hu Hproj Hne) as Hlen.
  cbn [select_rows] in Hsel. rewrite Hlen in Hsel. fold stop in Hsel.
  cbn [bind ret res_Monad] in Hsel.
  assert (Hstop : (0 <= stop <= Z.of_nat (len (frame st)))%Z).
  { unfold stop. destruct end_ as [e|]; lia. }
  set (a := clamp (len df1) s).
  set (b := clamp (len df1) stop).
  assert (Hb : b = Z.to_nat stop).
  { unfold b, clamp. rewrite Hlen. destruct (Z.ltb_spec stop 0); lia. }
  assert (Ha : a = Nat.min (len (frame st)) (Z.to_nat s)).
  { unfold a, clamp. rewrite Hlen. destruct (Z.ltb_spec s 0); lia. }
  assert (Hidx : seq a (b - a) = map Z.to_nat (py_range s stop)).
  { rewrite py_range_positions by assumption.
    destruct (Z.ltb_spec s stop) as [Hlt|Hge].
    - replace a with (Z.to_nat s) by lia.
      f_equal. lia.
    - replace (b - a) with 0 by lia.
      replace (Z.to_nat (stop - s)) with 0 by lia. reflexivity. }
  assert (Hdf2 : getitem_slice df1 s stop =
                 map_items (take (map Z.to_nat (py_range s stop))) df1).
  { unfold getitem_slice. fold a b. rewrite <- Hidx.
    apply map_items_ext. intros n c Hin. apply slice_take.
    rewrite (Hu1 n c Hin). subst b. lia. }
  assert (Hbound : Forall (fun i => i < len df1) (map Z.to_nat (py_range s stop))).
  { rewrite <- Hidx. apply Forall_forall. intros i Hi. apply in_seq in Hi. lia. }
  destruct Hsel as (rs & Hrs & Hrows).
  rewrite Hdf2 in Hrs.
  pose proof (rows_of_positions _ _ _ _ _ _ _ Hinfos Hproj Hu1 Hbound Hrs) as Henc.
  eexists. split; [exact Hrows|]. cbn [posidxs rows_].
  split; [reflexivity|]. split.
  - apply mapM_length in Henc. now rewrite Henc, length_map, length_py_range.
  - now apply encode_rows_show.
Qed.

Lemma rows_by_range_scenario :
  uniform scores /\
  _get_column_infos scores None None = inr scores_infos /\
  exists resp,
    rows (Some 1%Z) (Some 10%Z) None None None None None (fresh scores) =
      (inr resp, fresh scores) /\
    posidxs resp = Some [1; 2]%Z /\
    List.length (rows_ resp) = 2 /\
    shows_rows scores scores_infos None [1; 2] (rows_ resp).
Proof.
  assert (Hi : _get_column_infos scores None None = inr scores_infos) by reflexivity.
  assert (Hne : scores_infos <> []) by discriminate.
  split; [exact uniform_scores|]. split; [exact Hi|].
  exact (rows_by_range (fresh scores) 1 (Some 10%Z) None None None None scores_infos
           uniform_scores Hi Hne ltac:(lia) ltac:(cbn; lia)).
Defined.

(** X13. A negative [start]. With [-len(df) <= start < 0] and no [end], the
    frame is sliced from the end and [-start] rows come back, but the
    positions are computed as [range(start, len(df))]: the response lists
    [len(df) - start] positions, beginning with negative numbers, so it
    reports [len(df)] more positions than it returns rows. *)
Theorem rows_negative_start_positions_disagree
    (st : State) (s : Z)
    (key_column : option string) (keyidxs : option (list value))
    (requested variants : option (list string)) (infos : list ColumnInfo) :
  uniform (frame st) ->
  _get_column_infos (frame st) requested variants = inr infos ->
  infos <> [] ->
  (- Z.of_nat (len (frame st)) <= s < 0)%Z ->
  exists resp,
    rows (Some s) None None key_column keyidxs requested variants st = (inr resp, st) /\
    List.length (rows_ resp) = Z.to_nat (- s) /\
    posidxs resp = Some (py_range s (Z.of_nat (len (frame st)))) /\
    List.length (py_range s (Z.of_nat (len (frame st)))) =
      len (frame st) + List.length (rows_ resp).
Proof.
  intros Hu Hinfos Hne Hs.
  destruct (rows_spec st (Some s) None None key_column keyidxs requested variants
              infos Hu Hinfos) as (df1 & _ & Hproj & Hu1 & Hsel).
  pose proof (projected_len _ _ _ Hu Hproj Hne) as Hlen.
  cbn [select_rows] in Hsel. rewrite Hlen in Hsel.
  cbn [bind ret res_Monad] in Hsel.
  set (n := len (frame st)) in *.
  assert (Ha : clamp (len df1) s = Z.to_nat (Z.of_nat n + s)).
  { unfold clamp. rewrite Hlen. destruct (Z.ltb_spec s 0); lia. }
  assert (Hb : clamp (len df1) (Z.of_nat n) = n).
  { unfold clamp. rewrite Hlen. destruct (Z.ltb_spec (Z.of_nat n) 0); lia. }
  set (idxs := seq (Z.to_nat (Z.of_nat n + s)) (n - Z.to_nat (Z.of_nat n + s))).
  assert (Hdf2 : getitem_slice df1 s (Z.of_nat n) = map_items (take idxs) df1).
  { unfold getitem_slice. rewrite Ha, Hb.
    apply map_items_ext. intros m c Hin. apply slice_take.
    rewrite (Hu1 m c Hin). lia. }
  assert (Hbound : Forall (fun i => i < len df1) idxs).
  { apply Forall_forall. intros i Hi. apply in_seq in Hi. lia. }
  destruct Hsel as (rs & Hrs & Hrows).
  rewrite Hdf2 in Hrs. apply mapM_length in Hrs.
  rewrite length_seq, (len_take df1 idxs Hu1 Hbound) in Hrs.
  unfold idxs in Hrs. rewrite length_seq in Hrs.
  eexists. split; [exact Hrows|]. cbn.
  rewrite length_py_range, Hrs. repeat split; lia.
Qed.

Lemma rows_negative_start_positions_disagree_scenario :
  (- Z.of_nat (len scores) <= -1 < 0)%Z /\
  exists resp,
    rows (Some (-1)%Z) None None None None None None (fresh scores) =
      (inr resp, fresh scores) /\
    List.length (rows_ resp) = 1 /\
    posidxs resp = Some [-1; 0; 1; 2]%Z /\
    4 = 3 + List.length (rows_ resp).
Proof.
  assert (Hs : (- Z.of_nat (len scores) <= -1 < 0)%Z) by (cbn; lia).
  assert (Hne : scores_infos <> []) by discriminate.
  split; [exact Hs|].
  exact (rows_negative_start_positions_disagree (fresh scores) (-1) None None None None
           scores_infos uniform_scores eq_refl Hne Hs).
Defined.

(** X14. Keys without a key column on a frame without a primary key. When
    the column infos are produced, a request that selects by [keyidxs]
    alone on a frame that has no primary key raises the [ValueError] that
    asks for [key_column], whatever the keys are, and changes nothing. *)
Theorem rows_keys_need_key_column_or_primary_key
    (st : State) (keys : list value)
    (requested variants : option (list string)) (infos : list ColumnInfo) :
  uniform (frame st) ->
  _get_column_infos (frame st) requested variants = inr infos ->
  primary_key_name (frame st) = None ->
  rows None None None None (Some keys) requested variants st =
    (inl (ValueError
            "Must provide key_column if keyidxs are provided and no primary_key on dataframe."),
     st).
Proof.
  intros Hu Hinfos Hpk.
  destruct (rows_spec st None None None None (Some keys) requested variants
              infos Hu Hinfos) as (df1 & _ & Hproj & _ & Hsel).
  destruct Hproj as (_ & _ & _ & Hpk1). rewrite Hpk in Hpk1.
  cbn [select_rows] in Hsel. now rewrite Hpk1 in Hsel.
Qed.

Lemma rows_keys_need_key_column_or_primary_key_scenario :
  uniform scores /\
  _get_column_infos scores None None = inr scores_infos /\
  primary_key_name scores = None /\
  rows None None None None (Some [VInt 1]) None None (fresh scores) =
    (inl (ValueError
            "Must provide key_column if keyidxs are provided and no primary_key on dataframe."),
     fresh scores).
Proof.
  split; [exact uniform_scores|]. split; [reflexivity|]. split; [reflexivity|].
  exact (rows_keys_need_key_column_or_primary_key (fresh scores) [VInt 1] None None
           scores_infos uniform_scores eq_refl eq_refl).
Defined.

(** ** Reading after writing *)

Lemma edited_frame_uniform (df : DataFrame) (c : string) (col : Column)
    (mask : list bool) (v : value) :
  uniform df ->
  lookup c (items df) = Some col ->
  uniform (with_items df (store c (setitem_mask col mask v) (items df))).
Proof.
  intros Hu Hc n x Hin.
  rewrite (len_store df c (setitem_mask col mask v) col Hc)
    by apply length_assign_mask.
  cbn [items with_items] in Hin.
  destruct (store_In _ _ _ _ _ Hin) as [Hin'| ->].
  - now apply (Hu n x).
  - cbn. rewrite length_assign_mask. apply (Hu c col). now apply lookup_In.
Qed.

(** X15. Reading a row back after an edit. After a successful
    [edit(value=v, column=c, row_id=k, id_column=ic)] on a frame with
    columns of equal length, a rows request for the single position [i] of
    a row that matched [k], if it succeeds, returns one row in which the
    cell under each column info named [c] is the encoding of [v] by the
    formatter of column [c], and the cell under every other column info is
    the encoding of the value that column had at row [i] before the
    edit. *)
Theorem rows_after_edit
    (st st1 st2 : State) (v : value) (c ic : string) (k : value) (i : nat)
    (requested variants : option (list string)) (resp : RowsResponse) :
  uniform (frame st) ->
  edit v c k ic st = (inr tt, st1) ->
  matches (frame st) ic k i = true ->
  rows None None (Some [Z.of_nat i]) None None requested variants st1 = (inr resp, st2) ->
  exists r,
    rows_ resp = [r] /\
    forall j info,
      nth_error (column_infos resp) j = Some info ->
      exists col x,
        lookup (name info) (items (frame st)) = Some col /\
        nth_error (data col) i = Some x /\
        nth_error r j =
          Some (encode (formatter col) (if String.eqb (name info) c then v else x)
                       variants).
Proof.
  intros Hu Hedit Hmatch Hrows.
  destruct (edit_inr _ _ _ _ _ _ Hedit) as (idcol & col & Hic & Hc & _ & Hst1).
  set (mask := column_eq idcol k) in *.
  set (df' := with_items (frame st) (store c (setitem_mask col mask v) (items (frame st)))) in *.
  assert (Hf1 : frame st1 = df') by now rewrite Hst1.
  clear Hst1 Hedit.
  assert (Hu' : uniform (frame st1)).
  { rewrite Hf1. now apply edited_frame_uniform. }
  assert (Hmask : nth_error mask i = Some true).
  { unfold matches, cell in Hmatch. rewrite Hic in Hmatch.
    unfold mask, column_eq. rewrite nth_error_map.
    destruct (nth_error (data idcol) i) as [y|]; [|discriminate].
    cbn. now rewrite Hmatch. }
  destruct (_get_column_infos (frame st1) requested variants) as [e|infos] eqn:Hinfos.
  { unfold rows, lift, get_frame in Hrows. cbn [bind M_Monad] in Hrows.
    rewrite Hinfos in Hrows. discriminate. }
  destruct (rows_spec st1 None None (Some [Z.of_nat i]) None None requested variants
              infos Hu' Hinfos) as (df1 & _ & Hproj & Hu1 & Hsel).
  remember (rows None None (Some [Z.of_nat i]) None None requested variants st1)
    as answer eqn:Hanswer.
  clear Hanswer.
  cbn [select_rows] in Hsel. unfold getitem_posidxs in Hsel.
  cbn [mapM bind ret res_Monad] in Hsel. unfold norm_index in Hsel.
  destruct (Z.leb_spec 0 (Z.of_nat i)); [|lia].
  destruct (Z.ltb_spec (Z.of_nat i) (Z.of_nat (len df1))) as [Hi|Hi];
    cbn [andb bind ret res_Monad] in Hsel.
  2:{ destruct (Z.leb_spec (- Z.of_nat (len df1)) (Z.of_nat i));
        destruct (Z.ltb_spec (Z.of_nat i) 0); cbn in Hsel; try lia;
        rewrite Hsel in Hrows; discriminate. }
  rewrite Nat2Z.id in Hsel. destruct Hsel as (rs & Hrs & Hrows').
  rewrite Hrows' in Hrows. injection Hrows as <- _. cbn [rows_ column_infos].
  assert (Hb : Forall (fun i0 => i0 < len df1) [i]) by (repeat constructor; lia).
  pose proof (rows_of_positions _ _ _ _ _ _ _ Hinfos Hproj Hu1 Hb Hrs) as Henc.
  cbn [mapM bind ret res_Monad] in Henc.
  destruct (encode_row (frame st1) infos variants i) as [e|r] eqn:Hr; [discriminate|].
  injection Henc as <-. exists r. split; [reflexivity|].
  intros j info Hj. unfold encode_row in Hr. apply mapM_inr in Hr.
  destruct (Forall2_nth_error_l _ _ _ _ _ Hr Hj) as (y & Hy & Hcell).
  rewrite Hy. unfold getitem in Hcell. rewrite Hf1 in Hcell.
  unfold df' in Hcell. cbn [items with_items] in Hcell.
  destruct (String.eqb_spec (name info) c) as [Hn|Hn].
  - rewrite Hn, (lookup_store_same _ _ _ _ Hc) in Hcell.
    cbn [ret bind res_Monad] in Hcell.
    unfold setitem_mask, map_data in Hcell. cbn [data formatter] in Hcell.
    rewrite nth_error_assign_mask, Hmask in Hcell.
    destruct (nth_error (data col) i) as [x|] eqn:Ex; [|discriminate].
    injection Hcell as <-. exists col, x. rewrite Hn. auto.
  - rewrite (lookup_store_other _ _ _ _ Hn) in Hcell.
    destruct (lookup (name info) (items (frame st))) as [col0|] eqn:Hc0;
      [|discriminate].
    cbn [ret bind res_Monad] in Hcell.
    destruct (nth_error (data col0) i) as [x|] eqn:Ex; [|discriminate].
    injection Hcell as <-. exists col0, x. auto.
Qed.

Lemma rows_after_edit_scenario :
  uniform scores /\
  matches scores "id" (VInt 2) 1 = true /\
  exists r,
    rows_ {| column_infos := scores_infos; posidxs := Some [1%Z];
             rows_ := [[VInt 2; VInt 99]]; full_length := 3;
             primary_key := None |} = [r] /\
    forall j info,
      nth_error scores_infos j = Some info ->
      exists col x,
        lookup (name info) (items scores) = Some col /\
        nth_error (data col) 1 = Some x /\
        nth_error r j =
          Some (encode (formatter col)
                  (if String.eqb (name info) "score" then VInt 99 else x) None).
Proof.
  split; [exact uniform_scores|]. split; [reflexivity|].
  exact (rows_after_edit (fresh scores) _ _ (VInt 99) "score" "id" (VInt 2) 1
           None None _ uniform_scores eq_refl eq_refl eq_refl).
Defined.

(* ================================================================= *)
(** * Properties of the markdown components *)

Section MarkdownFacts.

Import Markdown.

Lemma append_inj_l (p s t : string) : (p ++ s)%string = (p ++ t)%string -> s = t.
Proof.
  induction p as [|ch p IH]; cbn; [auto|]. intros [= Heq]. auto.
Qed.

(** X17. The three heading validators never collide. Whatever the bodies,
    a title's markdown is never a header's or a subheader's, and a header's
    is never a subheader's, so the level can be read back from the text;
    and each validator gives different markdown to bodies that print
    differently. *)
Theorem heading_levels_are_distinct (v w : option value) :
  make_title v <> make_header w /\
  make_title v <> make_subheader w /\
  make_header v <> make_subheader w /\
  (make_title v = make_title w -> fmt v = fmt w) /\
  (make_header v = make_header w -> fmt v = fmt w) /\
  (make_subheader v = make_subheader w -> fmt v = fmt w).
Proof.
  unfold make_title, make_header, make_subheader.
  repeat split; try (intros Heq; cbn in Heq; discriminate Heq);
    apply append_inj_l.
Qed.

Lemma length_append (s t : string) :
  String.length (s ++ t) = String.length s + String.length t.
Proof.
  induction s as [|ch s IH]; cbn; [reflexivity|]. now rewrite IH.
Qed.

(** X18. Caption classes. The default classes [text-sm text-gray-400] are
    always the end of the result; the result is the defaults alone only
    when [classes] is [None]: any value that is given, the empty string
    included, is put in front of them followed by a space. *)
Theorem add_classes_keeps_defaults (v : option value) :
  (exists front, add_classes v = (front ++ "text-sm text-gray-400")%string) /\
  (add_classes v = "text-sm text-gray-400" <-> v = None) /\
  (forall x, v = Some x ->
     add_classes v = (py_str x ++ " text-sm text-gray-400")%string).
Proof.
  split; [|split].
  - destruct v as [x|]; cbn.
    + exists (py_str x ++ " ")%string.
      generalize (py_str x). intros s. induction s as [|ch s IH]; cbn; congruence.
    + now exists "".
  - split; [|now intros ->].
    destruct v as [x|]; [|reflexivity]. cbn. intros Heq.
    apply (f_equal String.length) in Heq. rewrite length_append in Heq.
    cbn in Heq. lia.
  - intros x ->. reflexivity.
Qed.

(** The empty string is not [None]: it yields the defaults after a
    space. *)
Example add_classes_empty_string :
  add_classes (Some (VStr "")) = " text-sm text-gray-400" /\
  add_classes None = "text-sm text-gray-400" /\
  add_classes (Some (VStr "italic")) = "italic text-sm text-gray-400".
Proof. repeat split. Qed.

End MarkdownFacts.

Section MarkdownSamples.

Import Markdown.

Lemma heading_levels_are_distinct_scenario :
  make_title (Some (VStr "Results")) = make_title (Some (VStr "Results")) /\
  fmt (Some (VStr "Results")) = fmt (Some (VStr "Results")).
Proof.
  split; [reflexivity|].
  exact (proj1 (proj2 (proj2 (proj2
           (heading_levels_are_distinct (Some (VStr "Results")) (Some (VStr "Results"))))))
         eq_refl).
Defined.

Lemma add_classes_keeps_defaults_scenario :
  Some (VStr "") = Some (VStr "") /\
  add_classes (Some (VStr "")) = " text-sm text-gray-400".
Proof.
  split; [reflexivity|].
  exact (proj2 (proj2 (add_classes_keeps_defaults (Some (VStr ""))))
           (VStr "") eq_refl).
Defined.

End MarkdownSamples.
